(** * FinalizerProcess: the constructor-time type-signature validator

    A shallow embedding of
    [tensorflow_federated/python/learning/framework/finalizers.py].

    The module holds one class, [FinalizerProcess], whose constructor calls
    the constructor of its base class [MeasuredProcess] and then inspects the
    type signatures of its two arguments, raising a descriptive error at the
    first rule that is broken.  Python exceptions are modelled in the error
    monad [sum PyException] of ExtLib: [inl e] is "raised [e]", [inr v] is
    "returned [v]". *)

From Stdlib Require Import String Ascii List Bool Arith Lia DecimalString.
From ExtLib Require Import Structures.Monad Structures.MonadExc.
From ExtLib Require Import Data.Monads.EitherMonad.
Import ListNotations.
Import MonadNotation.
Local Open Scope string_scope.
Local Open Scope monad_scope.

(** ** The type descriptors the constructor inspects

    The federated type system lives in [core/impl/types] and is not part of
    the module; only the constructors and queries that the constructor uses
    are represented. *)

(** [placements.SERVER] and [placements.CLIENTS]. *)
Inductive Placement : Type :=
| SERVER
| CLIENTS.

Definition Placement_eqb (p q : Placement) : bool :=
  match p, q with
  | SERVER, SERVER | CLIENTS, CLIENTS => true
  | _, _ => false
  end.

(** Python classes used as the container of a [StructWithPythonType].
    [ModelWeights] is [model_utils.ModelWeights]; [SubClass n b] is a class
    statement [class n(b)]; [OtherClass n] is any class that does not derive
    from [ModelWeights] (an [OrderedDict], [MeasuredProcessOutput], ...).
    Two class objects are the same object exactly when the terms are equal. *)
Inductive PyClass : Type :=
| ModelWeights
| OtherClass (name : string)
| SubClass (name : string) (base : PyClass).

(** [a is b] on class objects. *)
Fixpoint PyClass_is (a b : PyClass) : bool :=
  match a, b with
  | ModelWeights, ModelWeights => true
  | OtherClass n, OtherClass m => String.eqb n m
  | SubClass n a', SubClass m b' => String.eqb n m && PyClass_is a' b'
  | _, _ => false
  end.

(** [issubclass(a, b)]: [a] is [b] or derives from it. *)
Fixpoint issubclass (a b : PyClass) : bool :=
  PyClass_is a b ||
  match a with
  | SubClass _ a' => issubclass a' b
  | _ => false
  end.

Set Warnings "-register-all".

(** The type descriptors ([computation_types.Type] and its subclasses).  A
    structure is an ordered list of optionally named elements. *)
Inductive TffType : Type :=
| TensorType (dtype : string) (shape : list (option nat))
| StructType (elements : list (option string * TffType))
| StructWithPythonType (elements : list (option string * TffType))
                       (python_container : PyClass)
| SequenceType (element : TffType)
| FunctionType (parameter : option TffType) (result : TffType)
| AbstractType (label : string)
| PlacementType
| FederatedType (member : TffType) (placement : Placement) (all_equal : bool).

(** [t.is_federated()]. *)
Definition is_federated (t : TffType) : bool :=
  match t with
  | FederatedType _ _ _ => true
  | _ => false
  end.

(** [t.is_struct()]: true of [StructType] and of its subclass
    [StructWithPythonType]. *)
Definition is_struct (t : TffType) : bool :=
  match t with
  | StructType _ | StructWithPythonType _ _ => true
  | _ => false
  end.

(** [t.is_struct_with_python()]. *)
Definition is_struct_with_python (t : TffType) : bool :=
  match t with
  | StructWithPythonType _ _ => true
  | _ => false
  end.

(** The elements of a structure, in order (what [len], iteration and
    indexing of a struct type see); empty for a type that is no structure. *)
Definition struct_elements (t : TffType) : list (option string * TffType) :=
  match t with
  | StructType es | StructWithPythonType es _ => es
  | _ => []
  end.

(** The name of the Python class of a type descriptor, as [type(t).__name__]
    gives it. *)
Definition class_name (t : TffType) : string :=
  match t with
  | TensorType _ _ => "TensorType"
  | StructType _ => "StructType"
  | StructWithPythonType _ _ => "StructWithPythonType"
  | SequenceType _ => "SequenceType"
  | FunctionType _ _ => "FunctionType"
  | AbstractType _ => "AbstractType"
  | PlacementType => "PlacementType"
  | FederatedType _ _ _ => "FederatedType"
  end.

(** Modelled from the spec: [structure.flatten], which is not part of the
    module.  The spec speaks of "every leaf type in the step function's
    flattened parameter and result types": a structure is flattened
    element by element, in order and recursively; every other type is a
    leaf (a federated type is a leaf whatever its member is). *)
Fixpoint flatten (t : TffType) : list TffType :=
  let fix flatten_elements (es : list (option string * TffType)) :=
    match es with
    | [] => []
    | (_, v) :: es' => (flatten v ++ flatten_elements es')%list
    end in
  match t with
  | StructType es => flatten_elements es
  | StructWithPythonType es _ => flatten_elements es
  | _ => [t]
  end.

(** The same flattening over a list of elements. *)
Fixpoint flatten_elements (es : list (option string * TffType)) : list TffType :=
  match es with
  | [] => []
  | (_, v) :: es' => flatten v ++ flatten_elements es'
  end.

(** ** Computations and the process object *)

(** The type signature of a computation: a function type. *)
Record Signature : Type := {
  sig_parameter : option TffType;
  sig_result : TffType
}.

(** A computation object.  [comp_id] stands for the identity of the Python
    object; the constructor only reads [type_signature]. *)
Record Computation : Type := {
  comp_id : nat;
  type_signature : Signature
}.

(** The constructed object: the two callables the process exposes. *)
Record Process : Type := {
  initialize : Computation;
  next : Computation
}.

(** ** Exceptions *)

(** The exception classes that can leave the constructor.  The two
    [TypeError] subclasses defined in the module are [ModelWeightsTypeError]
    and [FinalizerResultTypeError]; the [Template...] classes come from
    [core/templates/errors]; [TypeError], [AttributeError] and [IndexError]
    are Python's own. *)
Inductive ExcClass : Type :=
| TypeError
| AttributeError
| IndexError
| TemplateNotFederatedError
| TemplatePlacementError
| TemplateNextFnNumArgsError
| TemplateStateNotAssignableError
| ModelWeightsTypeError
| FinalizerResultTypeError
| OtherError (name : string).

(** An exception in flight: [Raised c m] comes from a statement
    [raise c(m)]; [Uncaught c] is an exception of class [c] raised by the
    interpreter or by a library underneath (its text is not modelled). *)
Inductive PyException : Type :=
| Raised (cls : ExcClass) (message : string)
| Uncaught (cls : ExcClass).

Definition exc_class (e : PyException) : ExcClass :=
  match e with
  | Raised c _ | Uncaught c => c
  end.

(** The outcome of running a piece of the constructor. *)
Definition Outcome : Type -> Type := sum PyException.

(** [if cond: raise cls(message)]. *)
Definition raise_if (cond : bool) (cls : ExcClass) (message : string)
  : Outcome unit :=
  if cond then raise (Raised cls message) else ret tt.

(** ** Python values met while evaluating the checks *)

Inductive PyValue : Type :=
| VType (t : TffType)
| VPlacement (p : Placement)
| VStr (s : string).

(** [a != b] for the comparisons the constructor makes: two placement
    literals differ when they are different literals; two strings when they
    are different strings; values of different kinds always differ.  Two type
    descriptors are never compared by the constructor; the model answers
    [true] for them. *)
Definition py_ne (a b : PyValue) : bool :=
  match a, b with
  | VPlacement p, VPlacement q => negb (Placement_eqb p q)
  | VStr s, VStr s' => negb (String.eqb s s')
  | _, _ => true
  end.

(** The attributes the constructor reads off a type descriptor. *)
Inductive Attr : Type :=
| attr_placement
| attr_member
| attr_result
| attr_measurements.

Definition attr_name (a : Attr) : string :=
  match a with
  | attr_placement => "placement"
  | attr_member => "member"
  | attr_result => "result"
  | attr_measurements => "measurements"
  end.

(** The element of a structure with a given name, as attribute access on a
    structure finds it. *)
Fixpoint named_element (es : list (option string * TffType)) (n : string)
  : option TffType :=
  match es with
  | [] => None
  | (Some m, v) :: es' => if String.eqb m n then Some v else named_element es' n
  | (None, _) :: es' => named_element es' n
  end.

(** [t.a] for a type descriptor [t].  A federated type has [placement] and
    [member]; a function type has [result]; on a structure the attribute is
    looked up among the named elements; anything else is an
    [AttributeError]. *)
Definition getattr (t : TffType) (a : Attr) : Outcome PyValue :=
  match t, a with
  | FederatedType _ p _, attr_placement => ret (VPlacement p)
  | FederatedType m _ _, attr_member => ret (VType m)
  | FunctionType _ r, attr_result => ret (VType r)
  | StructType es, _ | StructWithPythonType es _, _ =>
      match named_element es (attr_name a) with
      | Some v => ret (VType v)
      | None => raise (Uncaught AttributeError)
      end
  | _, _ => raise (Uncaught AttributeError)
  end.

(** Attribute access on a value: a placement literal and a string have none
    of the four attributes. *)
Definition getattr_value (v : PyValue) (a : Attr) : Outcome PyValue :=
  match v with
  | VType t => getattr t a
  | _ => raise (Uncaught AttributeError)
  end.

(** The type descriptor behind a value on which a method of
    [computation_types.Type] is called. *)
Definition as_type (v : PyValue) : Outcome TffType :=
  match v with
  | VType t => ret t
  | _ => raise (Uncaught AttributeError)
  end.

(** [s[i]] on a structure. *)
Definition getitem (es : list (option string * TffType)) (i : nat)
  : Outcome TffType :=
  match nth_error es i with
  | Some (_, v) => ret v
  | None => raise (Uncaught IndexError)
  end.

(** [sep.join(items)]: the items must all be strings; the first one that is
    not makes [join] raise [TypeError]. *)
Fixpoint all_strings (items : list PyValue) : option (list string) :=
  match items with
  | [] => Some []
  | VStr s :: rest =>
      match all_strings rest with
      | Some l => Some (s :: l)
      | None => None
      end
  | _ :: _ => None
  end.

Definition str_join (sep : string) (items : list PyValue) : Outcome string :=
  match all_strings items with
  | Some l => ret (String.concat sep l)
  | None => raise (Uncaught TypeError)
  end.

(** [str(n)] for a length. *)
Definition str_of_nat (n : nat) : string :=
  NilEmpty.string_of_uint (Nat.to_uint n).

(** The two characters of the messages that are not written literally. *)
Definition nl : string := String "010"%char EmptyString.
Definition dq : string := String "034"%char EmptyString.

(** ** The constructor *)

Section Finalizers.

(** [target.is_assignable_from(source)], the assignability query of the type
    system; the subtyping algorithm is not part of the module. *)
Variable is_assignable_from : TffType -> TffType -> bool.

(** [str(t)] for a type descriptor, the compact representation that the
    messages embed. *)
Variable type_str : TffType -> string.

(** The validation done by the constructors of the base classes before they
    store the two computations: [None] when they accept the pair, the
    exception they raise otherwise.  The comment in the constructor names
    one of them, [TemplateStateNotAssignableError]. *)
Variable base_checks : Computation -> Computation -> option PyException.

(** [str(v)] for the values embedded in the messages. *)
Definition str_value (v : PyValue) : string :=
  match v with
  | VType t => type_str t
  | VPlacement SERVER => "SERVER"
  | VPlacement CLIENTS => "CLIENTS"
  | VStr s => s
  end.

(** [str(c.type_signature)]: a signature is a function type. *)
Definition signature_str (s : Signature) : string :=
  type_str (FunctionType (sig_parameter s) (sig_result s)).

(** Modelled from the spec: the constructor of the base class
    [measured_process.MeasuredProcess], which is not part of the module.
    The spec has it enforce the generic process invariants and expose "an
    initializer callable and a step callable" which "are exactly the inputs
    passed in": when [base_checks] accepts the pair the object holds the two
    computations unchanged. *)
Definition MeasuredProcess_init (initialize_fn next_fn : Computation)
  (next_is_multi_arg : bool) : Outcome Process :=
  match base_checks initialize_fn next_fn with
  | Some e => raise e
  | None => ret {| initialize := initialize_fn; next := next_fn |}
  end.

(** The messages of the [raise] statements, in the order of the source. *)
Definition msg_init_not_federated (init_result : TffType) : string :=
  "Provided `initialize_fn` must return a federated type, but found "
  ++ "return type:" ++ nl ++ type_str init_result ++ nl ++ "Tip: If you "
  ++ "see a collection of federated types, try wrapping the returned "
  ++ "value in `tff.federated_zip` before returning.".

Definition msg_next_not_federated (next_sig : Signature)
  (offending_types : string) : string :=
  "Provided `next_fn` must be a *federated* computation, that is, "
  ++ "operate on `tff.FederatedType`s, but found" ++ nl
  ++ "next_fn with type signature:" ++ nl ++ signature_str next_sig ++ nl
  ++ "The non-federated types are:" ++ nl ++ " " ++ offending_types ++ ".".

Definition msg_state_placement (init_result : TffType) : string :=
  "The state controlled by an `FinalizerProcess` must be placed at "
  ++ "the SERVER, but found type: " ++ type_str init_result ++ ".".

Definition msg_not_struct (next_fn_param : TffType) : string :=
  "The `next_fn` must have exactly two input arguments, but found "
  ++ "the following input type which is not a Struct: "
  ++ type_str next_fn_param ++ ".".

Definition msg_num_args (len : nat) (next_param_str : string) : string :=
  "The `next_fn` must have exactly three input arguments, but found "
  ++ str_of_nat len ++ " input arguments:" ++ nl ++ next_param_str.

Definition msg_second_placement (model_weights_param : TffType) : string :=
  "The second input argument of `next_fn` must be placed at SERVER "
  ++ "but found " ++ type_str model_weights_param ++ ".".

Definition msg_model_weights (model_weights_param : TffType) : string :=
  "The second input argument of `next_fn` must have the "
  ++ "`tff.learning.ModelWeights` container but found "
  ++ type_str model_weights_param.

Definition msg_third_placement (update_from_clients_param : TffType)
  : string :=
  "The third input argument of `next_fn` must be placed at SERVER "
  ++ "but found " ++ type_str update_from_clients_param ++ ".".

Definition msg_result_placement (result_attr : PyValue) : string :=
  "The " ++ dq ++ "result" ++ dq
  ++ " attribute of the return type of `next_fn` must be "
  ++ "placed at SERVER, but found " ++ str_value result_attr ++ ".".

Definition msg_result_type (second_member result_member : TffType)
  : string :=
  "The second input argument of `next_fn` must match the " ++ dq ++ "result"
  ++ dq ++ " " ++ "attribute of the return type of `next_fn`. Found:" ++ nl
  ++ "Second input argument: " ++ type_str second_member ++ nl
  ++ "Result attribute: " ++ type_str result_member ++ ".".

Definition msg_measurements_placement (measurements_attr : PyValue)
  : string :=
  "The " ++ dq ++ "measurements" ++ dq
  ++ " attribute of return type of `next_fn` must be "
  ++ "placed at SERVER, but found " ++ str_value measurements_attr ++ ".".

(** [structure.flatten(next_fn.type_signature.parameter) +
     structure.flatten(next_fn.type_signature.result)], the list that line 74
    goes through.  A computation without parameter has [None] for parameter
    type; [None] is no structure, it is its own single leaf, and the call
    [t.is_federated()] on it fails with [AttributeError]. *)
Definition next_types_of (next_sig : Signature) : Outcome (list TffType) :=
  match sig_parameter next_sig with
  | Some p => ret (flatten p ++ flatten (sig_result next_sig))%list
  | None => raise (Uncaught AttributeError)
  end.

(** The test of lines 107-109: the member is not a structure with a Python
    container, or its container is not the class [ModelWeights] itself. *)
Definition not_model_weights (member : TffType) : bool :=
  negb (is_struct_with_python member) ||
  match member with
  | StructWithPythonType _ c => negb (PyClass_is c ModelWeights)
  | _ => true
  end.

(** [FinalizerProcess.__init__(self, initialize_fn, next_fn)], lines 62-134.
    The value returned is the constructed object. *)
Definition FinalizerProcess_init (initialize_fn next_fn : Computation)
  : Outcome Process :=
  (* line 63 *)
  self <- MeasuredProcess_init initialize_fn next_fn true ;;
  let init_result := sig_result (type_signature initialize_fn) in
  let next_sig := type_signature next_fn in
  (* lines 65-70 *)
  raise_if (negb (is_federated init_result))
    TemplateNotFederatedError (msg_init_not_federated init_result) ;;
  (* lines 71-81 *)
  next_types <- next_types_of next_sig ;;
  (if negb (forallb is_federated next_types) then
     offending_types <-
       str_join (nl ++ "- ")
         (map VType (filter (fun t => negb (is_federated t)) next_types)) ;;
     raise (Raised TemplateNotFederatedError
              (msg_next_not_federated next_sig offending_types))
   else ret tt) ;;
  (* lines 83-86 *)
  init_placement <- getattr init_result attr_placement ;;
  raise_if (py_ne init_placement (VPlacement SERVER))
    TemplatePlacementError (msg_state_placement init_result) ;;
  (* lines 91-100 *)
  next_fn_param <-
    match sig_parameter next_sig with
    | Some p => ret p
    | None => raise (Uncaught AttributeError)
    end ;;
  raise_if (negb (is_struct next_fn_param))
    TemplateNextFnNumArgsError (msg_not_struct next_fn_param) ;;
  let params := struct_elements next_fn_param in
  (if negb (List.length params =? 3)%nat then
     next_param_str <-
       str_join (nl ++ "- ")
         (map (fun e => VStr (type_str (snd e))) params) ;;
     raise (Raised TemplateNextFnNumArgsError
              (msg_num_args (List.length params) next_param_str))
   else ret tt) ;;
  (* lines 101-102 *)
  model_weights_param <- getitem params 1 ;;
  update_from_clients_param <- getitem params 2 ;;
  (* lines 103-106 *)
  second_placement <- getattr model_weights_param attr_placement ;;
  raise_if (py_ne second_placement (VPlacement SERVER))
    TemplatePlacementError (msg_second_placement model_weights_param) ;;
  (* lines 107-113 *)
  second_member <- getattr model_weights_param attr_member ;;
  second_member <- as_type second_member ;;
  raise_if (not_model_weights second_member)
    ModelWeightsTypeError (msg_model_weights model_weights_param) ;;
  (* lines 114-117 *)
  third_placement <- getattr update_from_clients_param attr_placement ;;
  raise_if (py_ne third_placement (VPlacement SERVER))
    TemplatePlacementError (msg_third_placement update_from_clients_param) ;;
  (* lines 119-123 *)
  let next_fn_result := sig_result next_sig in
  result_attr <- getattr next_fn_result attr_result ;;
  result_placement <- getattr_value result_attr attr_placement ;;
  raise_if (py_ne result_placement (VPlacement SERVER))
    TemplatePlacementError (msg_result_placement result_attr) ;;
  (* lines 124-130 *)
  result_member <- getattr_value result_attr attr_member ;;
  result_member <- as_type result_member ;;
  raise_if (negb (is_assignable_from second_member result_member))
    FinalizerResultTypeError (msg_result_type second_member result_member) ;;
  (* lines 131-134 *)
  measurements_attr <- getattr next_fn_result attr_measurements ;;
  measurements_placement <- getattr_value measurements_attr attr_placement ;;
  raise_if (py_ne measurements_placement (VPlacement SERVER))
    TemplatePlacementError (msg_measurements_placement measurements_attr) ;;
  ret self.


(** ** The validation sequence

    The checks as a list of rules, each with the property that must hold,
    the class of the error raised when it does not and the message of that
    error.  The constructor is compared with the first broken rule of such a
    list. *)

Record Check : Type := {
  holds : Computation -> Computation -> bool;
  error : ExcClass;
  message : Computation -> Computation -> string
}.

Fixpoint first_violated (checks : list Check)
  (initialize_fn next_fn : Computation) : option Check :=
  match checks with
  | [] => None
  | c :: rest =>
      if holds c initialize_fn next_fn
      then first_violated rest initialize_fn next_fn
      else Some c
  end.

(** A federated type placed at the server. *)
Definition placed_at_server (t : TffType) : bool :=
  match t with
  | FederatedType _ SERVER _ => true
  | _ => false
  end.

(** The member of a federated type, the type itself otherwise. *)
Definition member_of (t : TffType) : TffType :=
  match t with
  | FederatedType m _ _ => m
  | _ => t
  end.

(** The [i]-th parameter of the step function ([PlacementType] stands in
    when there is none; the rules that use it come after the arity rule). *)
Definition next_param (i : nat) (next_fn : Computation) : TffType :=
  match sig_parameter (type_signature next_fn) with
  | Some p =>
      match nth_error (struct_elements p) i with
      | Some (_, v) => v
      | None => PlacementType
      end
  | None => PlacementType
  end.

(** The field of the step function's result with a given name. *)
Definition next_result_field (n : string) (next_fn : Computation) : TffType :=
  match named_element
          (struct_elements (sig_result (type_signature next_fn))) n with
  | Some v => v
  | None => PlacementType
  end.

Definition init_result (initialize_fn : Computation) : TffType :=
  sig_result (type_signature initialize_fn).

(** The leaf types of the step function: those of its parameter followed by
    those of its result. *)
Definition next_leaves (next_fn : Computation) : list TffType :=
  (match sig_parameter (type_signature next_fn) with
   | Some p => flatten p
   | None => []
   end ++ flatten (sig_result (type_signature next_fn)))%list.

Definition three_element_struct (next_fn : Computation) : bool :=
  match sig_parameter (type_signature next_fn) with
  | Some p => is_struct p && (List.length (struct_elements p) =? 3)%nat
  | None => false
  end.

(** The properties of the nine rules. *)
Definition rule1 (i n : Computation) : bool := is_federated (init_result i).
Definition rule2 (i n : Computation) : bool :=
  forallb is_federated (next_leaves n).
Definition rule3 (i n : Computation) : bool :=
  placed_at_server (init_result i).
Definition rule4 (i n : Computation) : bool := three_element_struct n.
Definition rule5_placement (i n : Computation) : bool :=
  placed_at_server (next_param 1 n).
Definition rule5_container (i n : Computation) : bool :=
  negb (not_model_weights (member_of (next_param 1 n))).
Definition rule6 (i n : Computation) : bool :=
  placed_at_server (next_param 2 n).
Definition rule7 (i n : Computation) : bool :=
  placed_at_server (next_result_field "result" n).
Definition rule8 (i n : Computation) : bool :=
  is_assignable_from (member_of (next_param 1 n))
                     (member_of (next_result_field "result" n)).
Definition rule9 (i n : Computation) : bool :=
  placed_at_server (next_result_field "measurements" n).

(** The messages of the rules, as functions of the two computations. *)
Definition message1 (i n : Computation) : string :=
  msg_init_not_federated (init_result i).
Definition message2 (i n : Computation) : string :=
  msg_next_not_federated (type_signature n)
    (String.concat (nl ++ "- ")
       (map type_str
          (filter (fun t => negb (is_federated t)) (next_leaves n)))).
Definition message3 (i n : Computation) : string :=
  msg_state_placement (init_result i).
Definition message4 (i n : Computation) : string :=
  match sig_parameter (type_signature n) with
  | Some p =>
      if is_struct p
      then msg_num_args (List.length (struct_elements p))
             (String.concat (nl ++ "- ")
                (map (fun e => type_str (snd e)) (struct_elements p)))
      else msg_not_struct p
  | None => EmptyString
  end.
Definition message5_placement (i n : Computation) : string :=
  msg_second_placement (next_param 1 n).
Definition message5_container (i n : Computation) : string :=
  msg_model_weights (next_param 1 n).
Definition message6 (i n : Computation) : string :=
  msg_third_placement (next_param 2 n).
Definition message7 (i n : Computation) : string :=
  msg_result_placement (VType (next_result_field "result" n)).
Definition message8 (i n : Computation) : string :=
  msg_result_type (member_of (next_param 1 n))
                  (member_of (next_result_field "result" n)).
Definition message9 (i n : Computation) : string :=
  msg_measurements_placement (VType (next_result_field "measurements" n)).

(** The sequence in the words of the specification: nine rules, the fifth
    one ("placed at server and tagged as the model-weights container")
    answered by the container-type error.  Rule 8 is taken in the reading
    of the specification's gloss, "the declared weights type can accept the
    produced result". *)
Definition spec_validation_sequence : list Check :=
  [ {| holds := rule1; error := TemplateNotFederatedError;
       message := message1 |};
    {| holds := rule2; error := TemplateNotFederatedError;
       message := message2 |};
    {| holds := rule3; error := TemplatePlacementError;
       message := message3 |};
    {| holds := rule4; error := TemplateNextFnNumArgsError;
       message := message4 |};
    {| holds := fun i n => rule5_placement i n && rule5_container i n;
       error := ModelWeightsTypeError; message := message5_container |};
    {| holds := rule6; error := TemplatePlacementError;
       message := message6 |};
    {| holds := rule7; error := TemplatePlacementError;
       message := message7 |};
    {| holds := rule8; error := FinalizerResultTypeError;
       message := message8 |};
    {| holds := rule9; error := TemplatePlacementError;
       message := message9 |} ].

(** The sequence with the fifth rule as the two consecutive tests of lines
    103-113: the placement, answered by the placement error, then the
    container, answered by the container-type error. *)
Definition validation_sequence : list Check :=
  [ {| holds := rule1; error := TemplateNotFederatedError;
       message := message1 |};
    {| holds := rule2; error := TemplateNotFederatedError;
       message := message2 |};
    {| holds := rule3; error := TemplatePlacementError;
       message := message3 |};
    {| holds := rule4; error := TemplateNextFnNumArgsError;
       message := message4 |};
    {| holds := rule5_placement; error := TemplatePlacementError;
       message := message5_placement |};
    {| holds := rule5_container; error := ModelWeightsTypeError;
       message := message5_container |};
    {| holds := rule6; error := TemplatePlacementError;
       message := message6 |};
    {| holds := rule7; error := TemplatePlacementError;
       message := message7 |};
    {| holds := rule8; error := FinalizerResultTypeError;
       message := message8 |};
    {| holds := rule9; error := TemplatePlacementError;
       message := message9 |} ].

(** A step function over federated types: it has a parameter, every leaf of
    its parameter and result types is federated, no element of its
    parameter is itself a structure, and its result is a structure whose
    fields [result] and [measurements] are federated types. *)
Definition federated_step (next_fn : Computation) : bool :=
  match sig_parameter (type_signature next_fn) with
  | Some p =>
      forallb is_federated (next_leaves next_fn)
      && forallb (fun e => is_federated (snd e)) (struct_elements p)
      && is_struct (sig_result (type_signature next_fn))
      && is_federated (next_result_field "result" next_fn)
      && is_federated (next_result_field "measurements" next_fn)
  | None => false
  end.

(** The outcome that a rule's error stands for. *)
Definition outcome_of (c : option Check) (initialize_fn next_fn : Computation)
  : Outcome Process :=
  match c with
  | Some c => raise (Raised (error c) (message c initialize_fn next_fn))
  | None => ret {| initialize := initialize_fn; next := next_fn |}
  end.

End Finalizers.

Arguments msg_init_not_federated : simpl never.
Arguments msg_next_not_federated : simpl never.
Arguments msg_state_placement : simpl never.
Arguments msg_not_struct : simpl never.
Arguments msg_num_args : simpl never.
Arguments msg_second_placement : simpl never.
Arguments msg_model_weights : simpl never.
Arguments msg_third_placement : simpl never.
Arguments msg_result_placement : simpl never.
Arguments msg_result_type : simpl never.
Arguments msg_measurements_placement : simpl never.

(** ** Statements about outcomes and messages *)

(** The constructor fails with an exception of class [c]. *)
Definition raises {A : Type} (o : Outcome A) (c : ExcClass) : Prop :=
  exists e, o = inl e /\ exc_class e = c.

(** The text [s] occurs in the message [m]. *)
Definition Embeds (s m : string) : Prop :=
  exists pre post, m = pre ++ s ++ post.

(** A structure like [t] with other elements (the container is kept). *)
Definition with_elements (t : TffType) (es : list (option string * TffType))
  : TffType :=
  match t with
  | StructWithPythonType _ c => StructWithPythonType es c
  | _ => StructType es
  end.

(** A computation like [c] with another parameter type. *)
Definition with_parameter (c : Computation) (p : TffType) : Computation :=
  {| comp_id := comp_id c;
     type_signature :=
       {| sig_parameter := Some p;
          sig_result := sig_result (type_signature c) |} |}.

(** ** A type system to run the constructor on *)

Module Instance.

(** A dimension of the target accepts the same dimension of the source; an
    unknown dimension accepts any. *)
Definition dim_accepts (target source : option nat) : bool :=
  match target, source with
  | None, _ => true
  | Some n, Some m => (n =? m)%nat
  | Some _, None => false
  end.

Fixpoint shape_accepts (target source : list (option nat)) : bool :=
  match target, source with
  | [], [] => true
  | d :: target', d' :: source' =>
      dim_accepts d d' && shape_accepts target' source'
  | _, _ => false
  end.

(** The name of a source element fits the target when it is the target's
    name or when the source element has no name. *)
Definition name_accepts (target source : option string) : bool :=
  match source, target with
  | None, _ => true
  | Some m, Some n => String.eqb n m
  | Some _, None => false
  end.

(** Modelled from the spec: the assignability query of the type system,
    which is not part of the module ("the declared weights type can accept
    the produced result", "true structural subtyping").  Tensors agree on
    the element type and the target shape accepts the source shape;
    structures have as many elements, with fitting names and assignable
    types, whatever their containers; federated types agree on the placement
    and an all-equal target needs an all-equal source.  Function types are
    outside this instance. *)
Fixpoint is_assignable_from (target source : TffType) {struct target}
  : bool :=
  let fix elements_accept (ts ss : list (option string * TffType))
    {struct ts} : bool :=
    match ts, ss with
    | [], [] => true
    | (n, t) :: ts', (m, s) :: ss' =>
        name_accepts n m && is_assignable_from t s && elements_accept ts' ss'
    | _, _ => false
    end in
  match target, source with
  | TensorType d sh, TensorType d' sh' =>
      String.eqb d d' && shape_accepts sh sh'
  | StructType ts, StructType ss
  | StructType ts, StructWithPythonType ss _
  | StructWithPythonType ts _, StructType ss
  | StructWithPythonType ts _, StructWithPythonType ss _ =>
      elements_accept ts ss
  | SequenceType t, SequenceType s => is_assignable_from t s
  | AbstractType l, AbstractType l' => String.eqb l l'
  | PlacementType, PlacementType => true
  | FederatedType t p a, FederatedType s q b =>
      is_assignable_from t s && Placement_eqb p q && (negb a || b)
  | _, _ => false
  end.

Definition dim_str (d : option nat) : string :=
  match d with
  | Some n => str_of_nat n
  | None => "?"
  end.

Definition placement_str (p : Placement) : string :=
  match p with
  | SERVER => "SERVER"
  | CLIENTS => "CLIENTS"
  end.

(** Modelled from the spec: [str(t)], the compact notation of a type, in
    the notation of the class docstring ([S@SERVER], [<a=T,b=U>],
    [( -> T)]). *)
Fixpoint type_str (t : TffType) : string :=
  let fix elements_str (es : list (option string * TffType)) : list string :=
    match es with
    | [] => []
    | (Some n, v) :: es' => (n ++ "=" ++ type_str v) :: elements_str es'
    | (None, v) :: es' => type_str v :: elements_str es'
    end in
  match t with
  | TensorType d [] => d
  | TensorType d sh =>
      d ++ "[" ++ String.concat "," (map dim_str sh) ++ "]"
  | StructType es | StructWithPythonType es _ =>
      "<" ++ String.concat "," (elements_str es) ++ ">"
  | SequenceType e => type_str e ++ "*"
  | FunctionType None r => "( -> " ++ type_str r ++ ")"
  | FunctionType (Some p) r =>
      "(" ++ type_str p ++ " -> " ++ type_str r ++ ")"
  | AbstractType l => l
  | PlacementType => "placement"
  | FederatedType m p true => type_str m ++ "@" ++ placement_str p
  | FederatedType m p false => "{" ++ type_str m ++ "}@" ++ placement_str p
  end.

(** The state parameter of a step function of several arguments: the first
    element of its parameter. *)
Definition state_parameter (next_fn : Computation) : option TffType :=
  match sig_parameter (type_signature next_fn) with
  | Some p =>
      match struct_elements p with
      | (_, s) :: _ => Some s
      | [] => None
      end
  | None => None
  end.

(** Modelled from the spec: the validation of the base class, which is not
    part of the module: "a generic process base class enforcing state-type
    equality between initializer and step function".  The state that the
    step function consumes must accept the state that the initializer
    returns and the state that the step function produces; the constructor
    names the error, [TemplateStateNotAssignableError]. *)
Definition base_checks (initialize_fn next_fn : Computation)
  : option PyException :=
  match state_parameter next_fn,
        named_element (struct_elements (sig_result (type_signature next_fn)))
                      "state" with
  | Some s, Some s' =>
      if is_assignable_from s (sig_result (type_signature initialize_fn))
         && is_assignable_from s s'
      then None
      else Some (Uncaught TemplateStateNotAssignableError)
  | _, _ => Some (Uncaught TemplateStateNotAssignableError)
  end.

(** [FinalizerProcess(initialize_fn, next_fn)] over this type system. *)
Definition FinalizerProcess : Computation -> Computation -> Outcome Process :=
  FinalizerProcess_init is_assignable_from type_str base_checks.

(** Types and computations of the examples. *)
Definition int32 : TffType := TensorType "int32" [].
Definition float32 : TffType := TensorType "float32" [].
Definition float32_vec (d : option nat) : TffType := TensorType "float32" [d].

Definition at_server (t : TffType) : TffType := FederatedType t SERVER true.
Definition at_clients (t : TffType) : TffType := FederatedType t CLIENTS false.

(** [ModelWeights(trainable, non_trainable)] with vectors of a given
    length, and the same structure in other containers. *)
Definition weights_in (c : PyClass) (d : option nat) : TffType :=
  StructWithPythonType
    [(Some "trainable", float32_vec d); (Some "non_trainable", float32_vec d)]
    c.
Definition weights (d : option nat) : TffType := weights_in ModelWeights d.

(** [MeasuredProcessOutput(state, result, measurements)]. *)
Definition output (state result measurements : TffType) : TffType :=
  StructWithPythonType
    [(Some "state", state); (Some "result", result);
     (Some "measurements", measurements)]
    (OtherClass "MeasuredProcessOutput").

Definition computation (id : nat) (p : option TffType) (r : TffType)
  : Computation :=
  {| comp_id := id;
     type_signature := {| sig_parameter := p; sig_result := r |} |}.

(** [( -> int32@SERVER)]. *)
Definition init_server : Computation :=
  computation 1 None (at_server int32).

(** [( -> {int32}@CLIENTS)]. *)
Definition init_clients : Computation :=
  computation 1 None (at_clients int32).

(** [( -> int32)]. *)
Definition init_unplaced : Computation :=
  computation 1 None int32.

(** A step function from its three parameters and the three fields of its
    result. *)
Definition step (state weights_param update : TffType)
  (state' result measurements : TffType) : Computation :=
  computation 2
    (Some (StructType [(None, state); (None, weights_param); (None, update)]))
    (output state' result measurements).

(** The step function of the class docstring. *)
Definition next_valid : Computation :=
  step (at_server int32) (at_server (weights (Some 5)))
       (at_server (float32_vec (Some 5)))
       (at_server int32) (at_server (weights (Some 5)))
       (at_server (StructType [])).

(** The docstring's step function with the third parameter at the clients. *)
Definition next_update_at_clients : Computation :=
  step (at_server int32) (at_server (weights (Some 5)))
       (at_clients (float32_vec (Some 5)))
       (at_server int32) (at_server (weights (Some 5)))
       (at_server (StructType [])).

(** A step function whose declared weights have vectors of unknown length
    and whose result has vectors of length 5: the weights type accepts the
    result type, the result type does not accept the weights type. *)
Definition next_widening : Computation :=
  step (at_server int32) (at_server (weights None))
       (at_server (float32_vec (Some 5)))
       (at_server int32) (at_server (weights (Some 5)))
       (at_server (StructType [])).

(** The other way round: declared weights of length 5, a result of unknown
    length. *)
Definition next_narrowing : Computation :=
  step (at_server int32) (at_server (weights (Some 5)))
       (at_server (float32_vec (Some 5)))
       (at_server int32) (at_server (weights None))
       (at_server (StructType [])).

(** A step function whose third parameter carries no placement. *)
Definition next_unplaced_update : Computation :=
  step (at_server int32) (at_server (weights (Some 5)))
       (float32_vec (Some 5))
       (at_server int32) (at_server (weights (Some 5)))
       (at_server (StructType [])).

(** A step function over an unplaced state. *)
Definition next_unplaced_state : Computation :=
  step int32 (at_server (weights (Some 5)))
       (at_server (float32_vec (Some 5)))
       int32 (at_server (weights (Some 5)))
       (at_server (StructType [])).

(** Step functions over a state placed at the clients: a valid one but for
    the state, and one whose third parameter carries no placement. *)
Definition next_clients_state : Computation :=
  step (at_clients int32) (at_server (weights (Some 5)))
       (at_server (float32_vec (Some 5)))
       (at_clients int32) (at_server (weights (Some 5)))
       (at_server (StructType [])).

Definition next_clients_state_unplaced_update : Computation :=
  step (at_clients int32) (at_server (weights (Some 5)))
       (float32_vec (Some 5))
       (at_clients int32) (at_server (weights (Some 5)))
       (at_server (StructType [])).

(** Step functions of two parameters, over a state at the server and over a
    state at the clients. *)
Definition next_two_params (state : TffType) : Computation :=
  computation 2
    (Some (StructType [(None, state); (None, at_server float32)]))
    (output state (at_server (weights (Some 5))) (at_server (StructType []))).

(** Step functions whose second parameter is placed at the clients, with the
    third parameter at the server and at the clients. *)
Definition next_weights_at_clients : Computation :=
  step (at_server int32) (at_clients (weights (Some 5)))
       (at_server (float32_vec (Some 5)))
       (at_server int32) (at_server (weights (Some 5)))
       (at_server (StructType [])).

Definition next_weights_and_update_at_clients : Computation :=
  step (at_server int32) (at_clients (weights (Some 5)))
       (at_clients (float32_vec (Some 5)))
       (at_server int32) (at_server (weights (Some 5)))
       (at_server (StructType [])).

(** Step functions whose weights sit in another container: an ordered
    dictionary, and a subclass of [ModelWeights]. *)
Definition next_weights_in (c : PyClass) : Computation :=
  step (at_server int32) (at_server (weights_in c (Some 5)))
       (at_server (float32_vec (Some 5)))
       (at_server int32) (at_server (weights (Some 5)))
       (at_server (StructType [])).

Definition MyWeights : PyClass := SubClass "MyWeights" ModelWeights.

(** Step functions whose [result] field, and whose [measurements] field, is
    placed at the clients. *)
Definition next_result_at_clients : Computation :=
  step (at_server int32) (at_server (weights (Some 5)))
       (at_server (float32_vec (Some 5)))
       (at_server int32) (at_clients (weights (Some 5)))
       (at_server (StructType [])).

Definition next_measurements_at_clients : Computation :=
  step (at_server int32) (at_server (weights (Some 5)))
       (at_server (float32_vec (Some 5)))
       (at_server int32) (at_server (weights (Some 5)))
       (at_clients (StructType [])).

(** A base class that accepts every pair. *)
Definition accept_all (initialize_fn next_fn : Computation)
  : option PyException := None.

End Instance.

(** * Properties *)

Section Properties.

Variable is_assignable_from : TffType -> TffType -> bool.
Variable type_str : TffType -> string.
Variable base_checks : Computation -> Computation -> option PyException.

Let FinalizerProcess : Computation -> Computation -> Outcome Process :=
  FinalizerProcess_init is_assignable_from type_str base_checks.

(** ** Classes, flattening, joining *)

Lemma PyClass_is_eq (a b : PyClass) : PyClass_is a b = true <-> a = b.
Proof.
  revert b; induction a as [| n | n a IH]; intros [| m | m b]; simpl;
    try (split; [discriminate | congruence]).
  - tauto.
  - rewrite String.eqb_eq. split; congruence.
  - rewrite andb_true_iff, String.eqb_eq, IH. split.
    + intros [-> ->]; reflexivity.
    + intros H; injection H as -> ->; auto.
Qed.

Lemma not_model_weights_false (m : TffType) :
  not_model_weights m = false <->
  exists es, m = StructWithPythonType es ModelWeights.
Proof.
  unfold not_model_weights. split.
  - destruct m; simpl; try discriminate.
    intros H. apply negb_false_iff, PyClass_is_eq in H. subst. eauto.
  - intros [es ->]. reflexivity.
Qed.

Lemma not_model_weights_true (m : TffType) :
  not_model_weights m = true <->
  forall es, m <> StructWithPythonType es ModelWeights.
Proof.
  split.
  - intros H es ->. discriminate H.
  - intros H. destruct (not_model_weights m) eqn:E; [reflexivity |].
    apply not_model_weights_false in E. destruct E as [es ->].
    exfalso. exact (H es eq_refl).
Qed.

Lemma flatten_struct_elements (t : TffType) :
  is_struct t = true -> flatten t = flatten_elements (struct_elements t).
Proof.
  destruct t; try discriminate; intros _; simpl;
    induction elements as [| [n v] es IH]; simpl; congruence.
Qed.

Lemma forallb_false_filter {A : Type} (f : A -> bool) (l : list A) :
  forallb f l = false ->
  exists x xs, filter (fun t => negb (f t)) l = x :: xs.
Proof.
  induction l as [| a l IH]; simpl; [discriminate |].
  destruct (f a); simpl; eauto.
Qed.

(** Joining type descriptors, not their texts, fails as soon as there is
    one. *)
Lemma str_join_types (sep : string) (t : TffType) (ts : list TffType) :
  str_join sep (map VType (t :: ts)) = inl (Uncaught TypeError).
Proof. reflexivity. Qed.

Lemma str_join_strings {A : Type} (sep : string) (f : A -> string)
  (l : list A) :
  str_join sep (map (fun e => VStr (f e)) l)
  = inr (String.concat sep (map f l)).
Proof.
  unfold str_join.
  assert (H : all_strings (map (fun e => VStr (f e)) l) = Some (map f l)).
  { induction l as [| a l IH]; simpl; [reflexivity | now rewrite IH]. }
  now rewrite H.
Qed.

(** ** Texts inside messages *)

Lemma append_assoc (a b c : string) : (a ++ b) ++ c = a ++ b ++ c.
Proof. induction a as [| ch a IH]; simpl; congruence. Qed.

Lemma append_empty_r (a : string) : a ++ EmptyString = a.
Proof. induction a as [| ch a IH]; simpl; congruence. Qed.

Lemma Embeds_refl (s : string) : Embeds s s.
Proof. exists EmptyString, EmptyString. simpl. now rewrite append_empty_r. Qed.

Lemma Embeds_prefix (s post : string) : Embeds s (s ++ post).
Proof. exists EmptyString, post. reflexivity. Qed.

Lemma Embeds_app_r (s p m : string) : Embeds s m -> Embeds s (p ++ m).
Proof.
  intros (pre & post & ->). exists (p ++ pre), post.
  now rewrite append_assoc.
Qed.

Lemma Embeds_concat (sep s : string) (l : list string) :
  In s l -> Embeds s (String.concat sep l).
Proof.
  induction l as [| a l IH]; [intros [] |].
  intros [-> | H]; simpl.
  - destruct l; [apply Embeds_refl | apply Embeds_prefix].
  - destruct l as [| b l']; [destruct H |].
    do 2 apply Embeds_app_r. exact (IH H).
Qed.

Ltac embeds :=
  solve [ apply Embeds_refl | apply Embeds_prefix
        | apply Embeds_app_r; embeds ].

(** ** The constructor, check by check *)

(** Unfolds the constructor up to the first test on an unknown. *)
Ltac run :=
  unfold FinalizerProcess, FinalizerProcess_init, MeasuredProcess_init,
    next_types_of, raise_if; cbn.

(** The first two steps: the base class, then the test of the initializer's
    result. *)
Lemma init_not_federated_raises (initialize_fn next_fn : Computation) :
  base_checks initialize_fn next_fn = None ->
  is_federated (sig_result (type_signature initialize_fn)) = false ->
  FinalizerProcess initialize_fn next_fn
  = inl (Raised TemplateNotFederatedError
           (msg_init_not_federated type_str
              (sig_result (type_signature initialize_fn)))).
Proof.
  intros Hb Hf. run. rewrite Hb. cbn. rewrite Hf. reflexivity.
Qed.

(** When the base class refuses the pair, its exception is the outcome. *)
Lemma base_refusal_propagates (initialize_fn next_fn : Computation)
  (e : PyException) :
  base_checks initialize_fn next_fn = Some e ->
  FinalizerProcess initialize_fn next_fn = inl e.
Proof. intros Hb. run. now rewrite Hb. Qed.

(** The statement that lists the offending types fails before the error of
    lines 77-81 is built. *)
Lemma next_not_federated_type_error (initialize_fn next_fn : Computation)
  (p : TffType) :
  base_checks initialize_fn next_fn = None ->
  is_federated (sig_result (type_signature initialize_fn)) = true ->
  sig_parameter (type_signature next_fn) = Some p ->
  forallb is_federated
    (flatten p ++ flatten (sig_result (type_signature next_fn)))%list = false ->
  FinalizerProcess initialize_fn next_fn = inl (Uncaught TypeError).
Proof.
  intros Hb Hi Hp Hf. run. rewrite Hb. cbn. rewrite Hi, Hp. cbn.
  rewrite Hf. cbn.
  destruct (forallb_false_filter _ _ Hf) as (x & xs & ->).
  now rewrite str_join_types.
Qed.

(** C3 (as amended).  When the base-class constructor accepts the pair and
    the result type of [initialize_fn] is not federated, construction fails
    with [TemplateNotFederatedError], whatever else holds of the two
    computations: the test is the first one the class makes after the
    base-class constructor has returned.  The message embeds the result
    type. *)
Theorem C3_init_not_federated (initialize_fn next_fn : Computation) :
  base_checks initialize_fn next_fn = None ->
  is_federated (sig_result (type_signature initialize_fn)) = false ->
  exists msg,
    FinalizerProcess initialize_fn next_fn
    = inl (Raised TemplateNotFederatedError msg)
    /\ Embeds (type_str (sig_result (type_signature initialize_fn))) msg.
Proof.
  intros Hb Hf. eexists. split.
  - apply init_not_federated_raises; assumption.
  - unfold msg_init_not_federated. embeds.
Qed.

(** C5 (as amended).  When the base-class constructor accepts the pair,
    [next_fn] has a parameter and every leaf type of [next_fn] is
    federated, an initializer whose result is federated but placed
    elsewhere than at the server makes construction fail with
    [TemplatePlacementError]; the message embeds the result type. *)
Theorem C5_init_placement (initialize_fn next_fn : Computation)
  (s p : TffType) (pl : Placement) (a : bool) :
  base_checks initialize_fn next_fn = None ->
  sig_result (type_signature initialize_fn) = FederatedType s pl a ->
  pl <> SERVER ->
  sig_parameter (type_signature next_fn) = Some p ->
  forallb is_federated
    (flatten p ++ flatten (sig_result (type_signature next_fn)))%list = true ->
  exists msg,
    FinalizerProcess initialize_fn next_fn
    = inl (Raised TemplatePlacementError msg)
    /\ msg = msg_state_placement type_str (FederatedType s pl a)
    /\ Embeds (type_str (FederatedType s pl a)) msg.
Proof.
  intros Hb Hi Hpl Hp Hf. eexists. split; [| split; [reflexivity |]].
  - run. rewrite Hb. cbn. rewrite Hi, Hp. cbn. rewrite Hf. cbn.
    destruct pl; [contradiction | reflexivity].
  - unfold msg_state_placement. embeds.
Qed.

(** The checks up to the arity of the parameter, for a pair that passes
    them. *)
Ltac upto_params Hb Hi Hp Hf Hs He :=
  run; rewrite Hb; cbn; rewrite Hi, Hp; cbn; rewrite Hf; cbn;
  rewrite Hs; cbn; rewrite He; cbn.

Lemma messages_differ (p : TffType) (n : nat) (s : string) :
  msg_not_struct type_str p <> msg_num_args n s.
Proof.
  unfold msg_not_struct, msg_num_args. cbn. intros H.
  repeat (injection H as H). discriminate.
Qed.

(** C4 (as amended).  When the base-class constructor accepts the pair, the
    initializer's result is federated and placed at the server and every leaf
    type of [next_fn] is federated, a parameter type of [next_fn] that is not
    a structure of three elements makes construction fail with
    [TemplateNextFnNumArgsError].  A parameter that is no structure gets a
    message that embeds the parameter type; a structure of another length gets
    a different message, which embeds the length and the type of every
    element. *)
Theorem C4_wrong_argument_count (initialize_fn next_fn : Computation)
  (s p : TffType) (a : bool) :
  base_checks initialize_fn next_fn = None ->
  sig_result (type_signature initialize_fn) = FederatedType s SERVER a ->
  sig_parameter (type_signature next_fn) = Some p ->
  forallb is_federated
    (flatten p ++ flatten (sig_result (type_signature next_fn)))%list = true ->
  is_struct p && (List.length (struct_elements p) =? 3)%nat = false ->
  exists msg,
    FinalizerProcess initialize_fn next_fn
    = inl (Raised TemplateNextFnNumArgsError msg)
    /\ ((is_struct p = false
         /\ msg = msg_not_struct type_str p
         /\ Embeds (type_str p) msg)
        \/ (is_struct p = true
            /\ msg = msg_num_args (List.length (struct_elements p))
                       (String.concat (nl ++ "- ")
                          (map (fun e => type_str (snd e)) (struct_elements p)))
            /\ Embeds (str_of_nat (List.length (struct_elements p))) msg
            /\ forall e, In e (struct_elements p) ->
                         Embeds (type_str (snd e)) msg))
    /\ forall n txt, msg_not_struct type_str p <> msg_num_args n txt.
Proof.
  intros Hb Hi Hp Hf Hbad.
  destruct (is_struct p) eqn:Hs; simpl in Hbad.
  - eexists. split; [| split; [right; split; [reflexivity |] |]].
    + run. rewrite Hb. cbn. rewrite Hi, Hp. cbn. rewrite Hf. cbn.
      rewrite Hs. cbn. rewrite Hbad. cbn.
      rewrite (str_join_strings _ (fun e => type_str (snd e))). cbn.
      reflexivity.
    + split; [reflexivity |]. unfold msg_num_args. split; [embeds |].
      intros e He. do 4 apply Embeds_app_r. apply Embeds_concat.
      apply in_map_iff. exists e. auto.
    + intros n txt. apply messages_differ.
  - eexists. split; [| split; [left; split; [reflexivity |] |]].
    + run. rewrite Hb. cbn. rewrite Hi, Hp. cbn. rewrite Hf. cbn.
      rewrite Hs. cbn. reflexivity.
    + split; [reflexivity |]. unfold msg_not_struct. embeds.
    + intros n txt. apply messages_differ.
Qed.

(** C6 (as amended).  When the checks before it pass (the base-class
    constructor accepts the pair, the initializer's result is federated at
    the server, every leaf type of [next_fn] is federated and its parameter
    is a structure of three elements), a second parameter placed at the
    server whose member is not a structure with the [ModelWeights] container
    makes construction fail with [ModelWeightsTypeError], and a second
    parameter placed elsewhere than at the server makes it fail with
    [TemplatePlacementError], not with the container-type error.  Both
    messages embed the type of the second parameter. *)
Theorem C6_second_parameter (initialize_fn next_fn : Computation)
  (s p m : TffType) (a a1 : bool) (pl : Placement)
  (e0 : option string * TffType) (n1 n2 : option string) (t2 : TffType) :
  base_checks initialize_fn next_fn = None ->
  sig_result (type_signature initialize_fn) = FederatedType s SERVER a ->
  sig_parameter (type_signature next_fn) = Some p ->
  forallb is_federated
    (flatten p ++ flatten (sig_result (type_signature next_fn)))%list = true ->
  is_struct p = true ->
  struct_elements p = [e0; (n1, FederatedType m pl a1); (n2, t2)] ->
  (pl = SERVER ->
   (forall es, m <> StructWithPythonType es ModelWeights) ->
   exists msg,
     FinalizerProcess initialize_fn next_fn
     = inl (Raised ModelWeightsTypeError msg)
     /\ Embeds (type_str (FederatedType m pl a1)) msg)
  /\ (pl <> SERVER ->
      exists msg,
        FinalizerProcess initialize_fn next_fn
        = inl (Raised TemplatePlacementError msg)
        /\ msg = msg_second_placement type_str (FederatedType m pl a1)
        /\ Embeds (type_str (FederatedType m pl a1)) msg).
Proof.
  intros Hb Hi Hp Hf Hs He. split.
  - intros -> Hm. apply not_model_weights_true in Hm.
    eexists. split.
    + upto_params Hb Hi Hp Hf Hs He. rewrite Hm. cbn. reflexivity.
    + unfold msg_model_weights. embeds.
  - intros Hpl. eexists. split; [| split; [reflexivity |]].
    + upto_params Hb Hi Hp Hf Hs He.
      destruct pl; [contradiction | reflexivity].
    + unfold msg_second_placement. embeds.
Qed.

Lemma py_ne_server_false (v : PyValue) :
  py_ne v (VPlacement SERVER) = false -> v = VPlacement SERVER.
Proof. destruct v as [t | [|] | s0]; cbn; congruence. Qed.

Lemma getattr_placement_server (t : TffType) :
  getattr t attr_placement = inr (VPlacement SERVER) ->
  exists m a, t = FederatedType m SERVER a.
Proof.
  destruct t; cbn; try discriminate.
  - destruct (named_element elements "placement"); discriminate.
  - destruct (named_element elements "placement"); discriminate.
  - intros [= ->]. eauto.
Qed.

Lemma getattr_value_placement_server (v : PyValue) :
  getattr_value v attr_placement = inr (VPlacement SERVER) ->
  exists m a, v = VType (FederatedType m SERVER a).
Proof.
  destruct v; cbn; try discriminate.
  intros H. apply getattr_placement_server in H as (m & a & ->). eauto.
Qed.

Lemma length_three {A : Type} (l : list A) :
  (List.length l =? 3)%nat = true -> exists x y z, l = [x; y; z].
Proof.
  destruct l as [| x [| y [| z [| w l]]]]; cbn; try discriminate. eauto.
Qed.

(** What a pair that the constructor accepts looks like. *)
Lemma valid_pair_inv (initialize_fn next_fn : Computation) (obj : Process) :
  FinalizerProcess initialize_fn next_fn = inr obj ->
  obj = {| initialize := initialize_fn; next := next_fn |}
  /\ base_checks initialize_fn next_fn = None
  /\ exists s a p e0 n1 w a1 n2 u a2 rm a3 mm a4,
      sig_result (type_signature initialize_fn) = FederatedType s SERVER a
      /\ sig_parameter (type_signature next_fn) = Some p
      /\ forallb is_federated
           (flatten p ++ flatten (sig_result (type_signature next_fn)))%list
         = true
      /\ is_struct p = true
      /\ struct_elements p
         = [e0; (n1, FederatedType w SERVER a1); (n2, FederatedType u SERVER a2)]
      /\ not_model_weights w = false
      /\ getattr (sig_result (type_signature next_fn)) attr_result
         = inr (VType (FederatedType rm SERVER a3))
      /\ is_assignable_from w rm = true
      /\ getattr (sig_result (type_signature next_fn)) attr_measurements
         = inr (VType (FederatedType mm SERVER a4)).
Proof.
  intros H.
  unfold FinalizerProcess, FinalizerProcess_init, MeasuredProcess_init,
    next_types_of, raise_if in H.
  destruct (base_checks initialize_fn next_fn) eqn:Hb; cbn in H;
    [discriminate |].
  destruct (is_federated (sig_result (type_signature initialize_fn))) eqn:Hif;
    cbn in H; [| discriminate].
  destruct (sig_parameter (type_signature next_fn)) as [p |] eqn:Hp;
    cbn in H; [| discriminate].
  destruct (forallb is_federated
              (flatten p ++ flatten (sig_result (type_signature next_fn))))
    eqn:Hf; cbn in H; [| destruct (str_join _ _); discriminate].
  destruct (getattr (sig_result (type_signature initialize_fn)) attr_placement)
    as [| v0] eqn:Hg0; cbn in H; [discriminate |].
  destruct (py_ne v0 (VPlacement SERVER)) eqn:Hn0; cbn in H; [discriminate |].
  apply py_ne_server_false in Hn0; subst v0.
  apply getattr_placement_server in Hg0 as (s & a & Hi).
  destruct (is_struct p) eqn:Hs; cbn in H; [| discriminate].
  destruct (List.length (struct_elements p) =? 3)%nat eqn:Hl; cbn in H;
    [| destruct (str_join _ _); discriminate].
  apply length_three in Hl as (e0 & [n1 t1] & [n2 t2] & He).
  rewrite He in H. cbn in H.
  destruct (getattr t1 attr_placement) as [| v1] eqn:Hg1; cbn in H;
    [discriminate |].
  destruct (py_ne v1 (VPlacement SERVER)) eqn:Hn1; cbn in H; [discriminate |].
  apply py_ne_server_false in Hn1; subst v1.
  apply getattr_placement_server in Hg1 as (w & a1 & ->). cbn in H.
  destruct (not_model_weights w) eqn:Hw; cbn in H; [discriminate |].
  destruct (getattr t2 attr_placement) as [| v2] eqn:Hg2; cbn in H;
    [discriminate |].
  destruct (py_ne v2 (VPlacement SERVER)) eqn:Hn2; cbn in H; [discriminate |].
  apply py_ne_server_false in Hn2; subst v2.
  apply getattr_placement_server in Hg2 as (u & a2 & ->).
  destruct (getattr (sig_result (type_signature next_fn)) attr_result)
    as [| vr] eqn:Hgr; cbn in H; [discriminate |].
  destruct (getattr_value vr attr_placement) as [| v3] eqn:Hg3; cbn in H;
    [discriminate |].
  destruct (py_ne v3 (VPlacement SERVER)) eqn:Hn3; cbn in H; [discriminate |].
  apply py_ne_server_false in Hn3; subst v3.
  apply getattr_value_placement_server in Hg3 as (rm & a3 & ->). cbn in H.
  destruct (is_assignable_from w rm) eqn:Ha; cbn in H; [| discriminate].
  destruct (getattr (sig_result (type_signature next_fn)) attr_measurements)
    as [| vm] eqn:Hgm; cbn in H; [discriminate |].
  destruct (getattr_value vm attr_placement) as [| v4] eqn:Hg4; cbn in H;
    [discriminate |].
  destruct (py_ne v4 (VPlacement SERVER)) eqn:Hn4; cbn in H; [discriminate |].
  apply py_ne_server_false in Hn4; subst v4.
  apply getattr_value_placement_server in Hg4 as (mm & a4 & ->).
  injection H as <-.
  split; [reflexivity |]. split; [reflexivity |].
  exists s, a, p, e0, n1, w, a1, n2, u, a2, rm, a3, mm, a4.
  repeat split; assumption.
Qed.

(** The converse: a pair of that shape is accepted. *)
Lemma valid_pair_intro (initialize_fn next_fn : Computation)
  (s p w u rm mm : TffType) (a a1 a2 a3 a4 : bool)
  (e0 : option string * TffType) (n1 n2 : option string) :
  base_checks initialize_fn next_fn = None ->
  sig_result (type_signature initialize_fn) = FederatedType s SERVER a ->
  sig_parameter (type_signature next_fn) = Some p ->
  forallb is_federated
    (flatten p ++ flatten (sig_result (type_signature next_fn)))%list = true ->
  is_struct p = true ->
  struct_elements p
  = [e0; (n1, FederatedType w SERVER a1); (n2, FederatedType u SERVER a2)] ->
  not_model_weights w = false ->
  getattr (sig_result (type_signature next_fn)) attr_result
  = inr (VType (FederatedType rm SERVER a3)) ->
  is_assignable_from w rm = true ->
  getattr (sig_result (type_signature next_fn)) attr_measurements
  = inr (VType (FederatedType mm SERVER a4)) ->
  FinalizerProcess initialize_fn next_fn
  = inr {| initialize := initialize_fn; next := next_fn |}.
Proof.
  intros Hb Hi Hp Hf Hs He Hw Hr Ha Hm.
  upto_params Hb Hi Hp Hf Hs He. rewrite Hw. cbn. rewrite Hr. cbn.
  rewrite Ha. cbn. rewrite Hm. cbn. reflexivity.
Qed.

Lemma getattr_struct (r : TffType) (a : Attr) (v : TffType) :
  is_struct r = true ->
  named_element (struct_elements r) (attr_name a) = Some v ->
  getattr r a = inr (VType v).
Proof.
  destruct r; try discriminate; intros _ H; cbn in *;
    destruct a; cbn in *; now rewrite H.
Qed.

(** An exception of one class is not of another. *)
Lemma raises_inl {A : Type} (e : PyException) (c : ExcClass) :
  raises (inl e : Outcome A) c <-> exc_class e = c.
Proof.
  unfold raises. split.
  - intros (e' & [= <-] & H). exact H.
  - intros H. eauto.
Qed.

Lemma raises_inr {A : Type} (x : A) (c : ExcClass) :
  ~ raises (inr x : Outcome A) c.
Proof. intros (e & H & _). discriminate. Qed.

(** Attribute access fails with [AttributeError] only. *)
Lemma getattr_error (t : TffType) (a : Attr) (e : PyException) :
  getattr t a = inl e -> e = Uncaught AttributeError.
Proof.
  destruct t, a; cbn; try congruence;
    match goal with
    | |- context [named_element ?es ?n] => destruct (named_element es n)
    end; congruence.
Qed.

Lemma getattr_value_error (v : PyValue) (a : Attr) (e : PyException) :
  getattr_value v a = inl e -> e = Uncaught AttributeError.
Proof. destruct v; cbn; [apply getattr_error | congruence ..]. Qed.

Lemma as_type_error (v : PyValue) (e : PyException) :
  as_type v = inl e -> e = Uncaught AttributeError.
Proof. destruct v; cbn; congruence. Qed.

(** Runs through the rest of the constructor to see that an exception class
    is not raised. *)
Ltac no_raise :=
  repeat match goal with
  | H : getattr _ _ = inl ?e |- _ => apply getattr_error in H; subst e
  | H : getattr_value _ _ = inl ?e |- _ =>
      apply getattr_value_error in H; subst e
  | H : as_type _ = inl ?e |- _ => apply as_type_error in H; subst e
  | |- ~ raises (inl _) _ => rewrite raises_inl; cbn; discriminate
  | |- ~ raises (inr _) _ => apply raises_inr
  | |- ~ raises (match (if ?c then _ else _) with _ => _ end) _ =>
      destruct c; cbn
  | |- ~ raises (if ?c then _ else _) _ => destruct c; cbn
  | |- ~ raises (match ?x with _ => _ end) _ => destruct x eqn:?; cbn
  end.

(** C1 (as amended).  After all earlier checks pass, the member type of the
    second parameter must be assignable from the member type of the [result]
    field (the declared weights type accepts the produced result): when it is
    not, construction fails with [FinalizerResultTypeError] and the message
    lists both member types; when it is, no such error is raised. *)
Theorem C1_result_type_mismatch (initialize_fn next_fn : Computation)
  (s p w u rm : TffType) (a a1 a2 a3 : bool)
  (e0 : option string * TffType) (n1 n2 : option string) :
  base_checks initialize_fn next_fn = None ->
  sig_result (type_signature initialize_fn) = FederatedType s SERVER a ->
  sig_parameter (type_signature next_fn) = Some p ->
  forallb is_federated
    (flatten p ++ flatten (sig_result (type_signature next_fn)))%list = true ->
  is_struct p = true ->
  struct_elements p
  = [e0; (n1, FederatedType w SERVER a1); (n2, FederatedType u SERVER a2)] ->
  not_model_weights w = false ->
  getattr (sig_result (type_signature next_fn)) attr_result
  = inr (VType (FederatedType rm SERVER a3)) ->
  (is_assignable_from w rm = false ->
   exists msg,
     FinalizerProcess initialize_fn next_fn
     = inl (Raised FinalizerResultTypeError msg)
     /\ msg = msg_result_type type_str w rm
     /\ Embeds (type_str w) msg
     /\ Embeds (type_str rm) msg)
  /\ (is_assignable_from w rm = true ->
      ~ raises (FinalizerProcess initialize_fn next_fn)
          FinalizerResultTypeError).
Proof.
  intros Hb Hi Hp Hf Hs He Hw Hr. split; intros Ha.
  - eexists. split; [| split; [reflexivity |]].
    + upto_params Hb Hi Hp Hf Hs He. rewrite Hw. cbn. rewrite Hr. cbn.
      rewrite Ha. cbn. reflexivity.
    + unfold msg_result_type. split; embeds.
  - upto_params Hb Hi Hp Hf Hs He. rewrite Hw. cbn. rewrite Hr. cbn.
    rewrite Ha. cbn. no_raise.
Qed.

(** C10.  Once the checks before it have passed, the container check rejects
    the pair with [ModelWeightsTypeError] exactly when the member of the
    second parameter is not a structure whose Python container is the class
    [ModelWeights] itself.  A member with any other container is rejected
    whatever its elements are, and so is one whose container is a strict
    subclass of [ModelWeights]. *)
Theorem C10_container_identity (initialize_fn next_fn : Computation)
  (s p m t2 : TffType) (a a1 : bool)
  (e0 : option string * TffType) (n1 n2 : option string) :
  base_checks initialize_fn next_fn = None ->
  sig_result (type_signature initialize_fn) = FederatedType s SERVER a ->
  sig_parameter (type_signature next_fn) = Some p ->
  forallb is_federated
    (flatten p ++ flatten (sig_result (type_signature next_fn)))%list = true ->
  is_struct p = true ->
  struct_elements p = [e0; (n1, FederatedType m SERVER a1); (n2, t2)] ->
  (raises (FinalizerProcess initialize_fn next_fn) ModelWeightsTypeError
   <-> forall es, m <> StructWithPythonType es ModelWeights)
  /\ (forall es c,
        m = StructWithPythonType es c -> c <> ModelWeights ->
        FinalizerProcess initialize_fn next_fn
        = inl (Raised ModelWeightsTypeError
                 (msg_model_weights type_str (FederatedType m SERVER a1))))
  /\ (forall es n c,
        m = StructWithPythonType es (SubClass n c) ->
        issubclass (SubClass n c) ModelWeights = true ->
        raises (FinalizerProcess initialize_fn next_fn) ModelWeightsTypeError).
Proof.
  intros Hb Hi Hp Hf Hs He.
  assert (Hno : not_model_weights m = true ->
                FinalizerProcess initialize_fn next_fn
                = inl (Raised ModelWeightsTypeError
                         (msg_model_weights type_str
                            (FederatedType m SERVER a1)))).
  { intros Hm. upto_params Hb Hi Hp Hf Hs He. rewrite Hm. reflexivity. }
  split; [split |].
  - intros Hr. apply not_model_weights_true.
    destruct (not_model_weights m) eqn:Hm; [reflexivity |].
    exfalso. revert Hr.
    change (~ raises (FinalizerProcess initialize_fn next_fn)
              ModelWeightsTypeError).
    upto_params Hb Hi Hp Hf Hs He. rewrite Hm. cbn. no_raise.
  - intros Hm. apply not_model_weights_true in Hm.
    rewrite (Hno Hm). apply raises_inl. reflexivity.
  - split.
    + intros es c -> Hc. apply Hno. apply not_model_weights_true.
      intros es' [= _ ->]. contradiction.
    + intros es n c -> _. rewrite Hno; [apply raises_inl; reflexivity |].
      reflexivity.
Qed.

Lemma flatten_with_elements (p : TffType)
  (es : list (option string * TffType)) :
  flatten (with_elements p es) = flatten_elements es.
Proof.
  rewrite flatten_struct_elements; destruct p; reflexivity.
Qed.

Lemma forallb_app_true {A : Type} (f : A -> bool) (l l' : list A) :
  forallb f (l ++ l')%list = true <-> forallb f l = true /\ forallb f l' = true.
Proof. rewrite forallb_app. apply andb_true_iff. Qed.

(** C7.  For a pair that the constructor accepts, moving only the third
    element of the parameter of [next_fn] from the server to the clients
    (the base-class constructor still accepting the pair) makes construction
    fail with [TemplatePlacementError]; the message speaks of the third input
    argument and embeds its type. *)
Theorem C7_third_parameter_placement (initialize_fn next_fn : Computation)
  (obj : Process) (p u : TffType) (a2 a2' : bool)
  (e0 e1 : option string * TffType) (n2 : option string) :
  FinalizerProcess initialize_fn next_fn = inr obj ->
  sig_parameter (type_signature next_fn) = Some p ->
  struct_elements p = [e0; e1; (n2, FederatedType u SERVER a2)] ->
  let third := FederatedType u CLIENTS a2' in
  let next_fn' := with_parameter next_fn (with_elements p [e0; e1; (n2, third)]) in
  base_checks initialize_fn next_fn' = None ->
  exists msg,
    FinalizerProcess initialize_fn next_fn'
    = inl (Raised TemplatePlacementError msg)
    /\ msg = msg_third_placement type_str third
    /\ Embeds "third input argument" msg
    /\ Embeds (type_str third) msg.
Proof.
  intros Hok Hp He third next_fn' Hb'.
  apply valid_pair_inv in Hok
    as (_ & _ & s & a & p' & e0' & n1 & w & a1 & n2' & u' & a2'' & rm & a3
          & mm & a4 & Hi & Hp' & Hf & Hs & He' & Hw & Hr & Ha & Hm).
  rewrite Hp in Hp'. injection Hp' as <-.
  rewrite He in He'. injection He' as <- -> <- <- <-.
  eexists. split; [| split; [reflexivity |]].
  - assert (Hf' : forallb is_federated
                    (flatten (with_elements p [e0; (n1, FederatedType w SERVER a1);
                                               (n2, third)])
                     ++ flatten (sig_result (type_signature next_fn)))%list
                  = true).
    { apply forallb_app_true in Hf as [Hfp Hfr].
      apply forallb_app_true. split; [| exact Hfr].
      rewrite flatten_with_elements.
      rewrite (flatten_struct_elements p Hs), He in Hfp.
      destruct e0 as [n0 t0]. cbn in *.
      apply forallb_app_true in Hfp as [H0 _].
      apply forallb_app_true. split; [exact H0 | reflexivity]. }
    subst next_fn'. run. cbn in Hb'. rewrite Hb'. cbn. rewrite Hi. cbn.
    rewrite Hf'. cbn.
    destruct p; try discriminate; cbn; rewrite Hw; cbn; reflexivity.
  - unfold msg_third_placement. split; [| embeds].
    exists "The ", (" of `next_fn` must be placed at SERVER but found "
                    ++ type_str third ++ ".").
    reflexivity.
Qed.

(** C8.  For a pair with the signatures of the class docstring, which the
    base-class constructor accepts (an initializer returning a federated
    value at the server; a step function over a structure of three federated
    parameters at the server, the second one with the [ModelWeights]
    container, returning the fields [state], [result] and [measurements],
    all at the server; a weights type that accepts the result type),
    construction succeeds, and the callables of the constructed object are
    the two computations passed in. *)
Theorem C8_valid_pair_accepted (initialize_fn next_fn : Computation)
  (s s0 s' p r u rm mm : TffType) (a a0 a1 a2 a3 a4 a5 : bool)
  (n0 n1 n2 : option string)
  (wes : list (option string * TffType)) :
  base_checks initialize_fn next_fn = None ->
  sig_result (type_signature initialize_fn) = FederatedType s SERVER a ->
  sig_parameter (type_signature next_fn) = Some p ->
  is_struct p = true ->
  struct_elements p
  = [(n0, FederatedType s0 SERVER a0);
     (n1, FederatedType (StructWithPythonType wes ModelWeights) SERVER a1);
     (n2, FederatedType u SERVER a2)] ->
  sig_result (type_signature next_fn) = r ->
  is_struct r = true ->
  struct_elements r
  = [(Some "state", FederatedType s' SERVER a5);
     (Some "result", FederatedType rm SERVER a3);
     (Some "measurements", FederatedType mm SERVER a4)] ->
  is_assignable_from (StructWithPythonType wes ModelWeights) rm = true ->
  exists obj,
    FinalizerProcess initialize_fn next_fn = inr obj
    /\ initialize obj = initialize_fn
    /\ next obj = next_fn.
Proof.
  intros Hb Hi Hp Hs He Hr Hrs Hre Ha.
  exists {| initialize := initialize_fn; next := next_fn |}.
  split; [| split; reflexivity].
  subst r.
  apply (valid_pair_intro initialize_fn next_fn s p
           (StructWithPythonType wes ModelWeights) u rm mm a a1 a2 a3 a4
           (n0, FederatedType s0 SERVER a0) n1 n2 Hb Hi Hp);
    try assumption.
  - apply forallb_app_true. split.
    + rewrite (flatten_struct_elements p Hs), He. reflexivity.
    + rewrite (flatten_struct_elements _ Hrs), Hre. reflexivity.
  - reflexivity.
  - apply getattr_struct; [exact Hrs |]. rewrite Hre. reflexivity.
  - apply getattr_struct; [exact Hrs |]. rewrite Hre. reflexivity.
Qed.

(** The constructor against the sequence, for a step function over federated
    types: it raises the error of the earliest violated check of
    [validation_sequence], with that check's message, and returns the object
    when no check is violated. *)
Lemma validation_order_federated_step (initialize_fn next_fn : Computation) :
  base_checks initialize_fn next_fn = None ->
  federated_step next_fn = true ->
  FinalizerProcess initialize_fn next_fn
  = outcome_of
      (first_violated (validation_sequence is_assignable_from type_str)
         initialize_fn next_fn)
      initialize_fn next_fn.
Proof.
  intros Hb Hfs. unfold federated_step in Hfs.
  destruct (sig_parameter (type_signature next_fn)) as [p |] eqn:Hp;
    [| discriminate].
  apply andb_true_iff in Hfs as [Hfs Hmf].
  apply andb_true_iff in Hfs as [Hfs Hrf].
  apply andb_true_iff in Hfs as [Hfs Hrs].
  apply andb_true_iff in Hfs as [Hf Hel].
  unfold validation_sequence, first_violated, holds.
  (* rule 1 *)
  unfold rule1, init_result.
  destruct (is_federated (sig_result (type_signature initialize_fn))) eqn:Hif.
  2:{ cbn [outcome_of error message]. apply init_not_federated_raises; assumption. }
  (* rule 2 *)
  unfold rule2. rewrite Hf.
  unfold next_leaves in Hf. rewrite Hp in Hf.
  (* rule 3 *)
  unfold rule3, init_result.
  destruct (sig_result (type_signature initialize_fn))
    as [| | | | | | | s pl a] eqn:Hi; try discriminate.
  destruct pl; cbn [placed_at_server].
  2:{ cbn [outcome_of error message]. unfold message3, init_result. rewrite Hi.
      run. rewrite Hb. cbn. rewrite Hi, Hp. cbn. rewrite Hf. reflexivity. }
  (* rule 4 *)
  unfold rule4, three_element_struct. rewrite Hp.
  destruct (is_struct p) eqn:Hs; cbn [andb].
  2:{ cbn [outcome_of error message]. unfold message4. rewrite Hp, Hs.
      run. rewrite Hb. cbn. rewrite Hi, Hp. cbn. rewrite Hf. cbn.
      rewrite Hs. reflexivity. }
  destruct (List.length (struct_elements p) =? 3)%nat eqn:Hl.
  2:{ cbn [outcome_of error message]. unfold message4. rewrite Hp, Hs.
      run. rewrite Hb. cbn. rewrite Hi, Hp. cbn. rewrite Hf. cbn.
      rewrite Hs. cbn. rewrite Hl. cbn.
      rewrite (str_join_strings _ (fun e => type_str (snd e))). reflexivity. }
  apply length_three in Hl as (e0 & [n1 t1] & [n2 t2] & He).
  rewrite He in Hel. cbn in Hel.
  apply andb_true_iff in Hel as [_ Hel].
  apply andb_true_iff in Hel as [Ht1 Hel].
  apply andb_true_iff in Hel as [Ht2 _].
  assert (E1 : next_param 1 next_fn = t1)
    by (unfold next_param; rewrite Hp, He; reflexivity).
  assert (E2 : next_param 2 next_fn = t2)
    by (unfold next_param; rewrite Hp, He; reflexivity).
  unfold next_result_field in Hrf, Hmf.
  destruct (named_element (struct_elements (sig_result (type_signature next_fn)))
              "result") as [rt |] eqn:Hnr; [| discriminate].
  destruct (named_element (struct_elements (sig_result (type_signature next_fn)))
              "measurements") as [mt |] eqn:Hnm; [| discriminate].
  assert (Er : next_result_field "result" next_fn = rt)
    by (unfold next_result_field; now rewrite Hnr).
  assert (Em : next_result_field "measurements" next_fn = mt)
    by (unfold next_result_field; now rewrite Hnm).
  pose proof (getattr_struct _ attr_result rt Hrs Hnr) as Hgr.
  pose proof (getattr_struct _ attr_measurements mt Hrs Hnm) as Hgm.
  unfold rule5_placement, rule5_container, rule6, rule7, rule8, rule9.
  rewrite E1, E2, Er, Em.
  destruct t1 as [| | | | | | | m1 pl1 b1]; try discriminate.
  destruct t2 as [| | | | | | | m2 pl2 b2]; try discriminate.
  destruct rt as [| | | | | | | rm pl3 b3]; try discriminate.
  destruct mt as [| | | | | | | mm pl4 b4]; try discriminate.
  cbn [member_of].
  (* rule 5, placement *)
  destruct pl1; cbn [placed_at_server].
  2:{ cbn [outcome_of error message]. unfold message5_placement. rewrite E1.
      upto_params Hb Hi Hp Hf Hs He. reflexivity. }
  (* rule 5, container *)
  destruct (not_model_weights m1) eqn:Hw; cbn [negb].
  { cbn [outcome_of error message]. unfold message5_container. rewrite E1.
    upto_params Hb Hi Hp Hf Hs He. rewrite Hw. reflexivity. }
  (* rule 6 *)
  destruct pl2; cbn [placed_at_server].
  2:{ cbn [outcome_of error message]. unfold message6. rewrite E2.
      upto_params Hb Hi Hp Hf Hs He. rewrite Hw. reflexivity. }
  (* rule 7 *)
  destruct pl3; cbn [placed_at_server].
  2:{ cbn [outcome_of error message]. unfold message7. rewrite Er.
      upto_params Hb Hi Hp Hf Hs He. rewrite Hw. cbn. rewrite Hgr.
      reflexivity. }
  (* rule 8 *)
  destruct (is_assignable_from m1 rm) eqn:Ha.
  2:{ cbn [outcome_of error message]. unfold message8. rewrite E1, Er. cbn [member_of].
      upto_params Hb Hi Hp Hf Hs He. rewrite Hw. cbn. rewrite Hgr. cbn.
      rewrite Ha. reflexivity. }
  (* rule 9 *)
  destruct pl4; cbn [placed_at_server].
  2:{ cbn [outcome_of error message]. unfold message9. rewrite Em.
      upto_params Hb Hi Hp Hf Hs He. rewrite Hw. cbn. rewrite Hgr. cbn.
      rewrite Ha. cbn. rewrite Hgm. reflexivity. }
  cbn [outcome_of].
  upto_params Hb Hi Hp Hf Hs He. rewrite Hw. cbn. rewrite Hgr. cbn.
  rewrite Ha. cbn. rewrite Hgm. reflexivity.
Qed.
(** ** Further properties of the constructor *)

Lemma str_join_error (sep : string) (items : list PyValue) (e : PyException) :
  str_join sep items = inl e -> e = Uncaught TypeError.
Proof. unfold str_join. destruct (all_strings items); cbn; congruence. Qed.

(** The placement of the [result] field (lines 119-123).  Once the checks
    on the parameters have passed, a [result] field that is federated but
    placed elsewhere than at the server makes construction fail with
    [TemplatePlacementError], whether or not its member fits the weights; the
    message embeds the type of the field. *)
Theorem result_field_placement (initialize_fn next_fn : Computation)
  (s p w u rm : TffType) (a a1 a2 a3 : bool) (pl : Placement)
  (e0 : option string * TffType) (n1 n2 : option string) :
  base_checks initialize_fn next_fn = None ->
  sig_result (type_signature initialize_fn) = FederatedType s SERVER a ->
  sig_parameter (type_signature next_fn) = Some p ->
  forallb is_federated
    (flatten p ++ flatten (sig_result (type_signature next_fn)))%list = true ->
  is_struct p = true ->
  struct_elements p
  = [e0; (n1, FederatedType w SERVER a1); (n2, FederatedType u SERVER a2)] ->
  (exists es, w = StructWithPythonType es ModelWeights) ->
  is_struct (sig_result (type_signature next_fn)) = true ->
  named_element (struct_elements (sig_result (type_signature next_fn)))
    "result" = Some (FederatedType rm pl a3) ->
  pl <> SERVER ->
  exists msg,
    FinalizerProcess initialize_fn next_fn
    = inl (Raised TemplatePlacementError msg)
    /\ msg = msg_result_placement type_str (VType (FederatedType rm pl a3))
    /\ Embeds (type_str (FederatedType rm pl a3)) msg.
Proof.
  intros Hb Hi Hp Hf Hs He Hw Hrs Hnr Hpl.
  apply not_model_weights_false in Hw.
  pose proof (getattr_struct _ attr_result _ Hrs Hnr) as Hgr.
  eexists. split; [| split; [reflexivity |]].
  - upto_params Hb Hi Hp Hf Hs He. rewrite Hw. cbn. rewrite Hgr. cbn.
    destruct pl; [contradiction | reflexivity].
  - unfold msg_result_placement. cbn [str_value]. embeds.
Qed.

(** The placement of the [measurements] field (lines 131-134), the last
    check: with everything before it in order, a [measurements] field that is
    federated but placed elsewhere than at the server makes construction fail
    with [TemplatePlacementError]; the message embeds the type of the
    field. *)
Theorem measurements_field_placement (initialize_fn next_fn : Computation)
  (s p w u rm mm : TffType) (a a1 a2 a3 a4 : bool) (pl : Placement)
  (e0 : option string * TffType) (n1 n2 : option string) :
  base_checks initialize_fn next_fn = None ->
  sig_result (type_signature initialize_fn) = FederatedType s SERVER a ->
  sig_parameter (type_signature next_fn) = Some p ->
  forallb is_federated
    (flatten p ++ flatten (sig_result (type_signature next_fn)))%list = true ->
  is_struct p = true ->
  struct_elements p
  = [e0; (n1, FederatedType w SERVER a1); (n2, FederatedType u SERVER a2)] ->
  (exists es, w = StructWithPythonType es ModelWeights) ->
  is_struct (sig_result (type_signature next_fn)) = true ->
  named_element (struct_elements (sig_result (type_signature next_fn)))
    "result" = Some (FederatedType rm SERVER a3) ->
  is_assignable_from w rm = true ->
  named_element (struct_elements (sig_result (type_signature next_fn)))
    "measurements" = Some (FederatedType mm pl a4) ->
  pl <> SERVER ->
  exists msg,
    FinalizerProcess initialize_fn next_fn
    = inl (Raised TemplatePlacementError msg)
    /\ msg = msg_measurements_placement type_str
               (VType (FederatedType mm pl a4))
    /\ Embeds (type_str (FederatedType mm pl a4)) msg.
Proof.
  intros Hb Hi Hp Hf Hs He Hw Hrs Hnr Ha Hnm Hpl.
  apply not_model_weights_false in Hw.
  pose proof (getattr_struct _ attr_result _ Hrs Hnr) as Hgr.
  pose proof (getattr_struct _ attr_measurements _ Hrs Hnm) as Hgm.
  eexists. split; [| split; [reflexivity |]].
  - upto_params Hb Hi Hp Hf Hs He. rewrite Hw. cbn. rewrite Hgr. cbn.
    rewrite Ha. cbn. rewrite Hgm. cbn.
    destruct pl; [contradiction | reflexivity].
  - unfold msg_measurements_placement. cbn [str_value]. embeds.
Qed.

(** The pairs that the constructor accepts.  Construction returns an object
    exactly when the base-class constructor accepts the pair, the
    initializer's result is federated at the server, every leaf type of the
    step function is federated, its parameter is a structure of three
    elements whose second and third are federated at the server, the member
    of the second has the [ModelWeights] container and accepts the member of
    the [result] attribute, and the [result] and [measurements] attributes of
    the result type are federated at the server.  The object returned holds
    the two computations. *)
Theorem accepted_pairs (initialize_fn next_fn : Computation) (obj : Process) :
  FinalizerProcess initialize_fn next_fn = inr obj
  <->
  obj = {| initialize := initialize_fn; next := next_fn |}
  /\ base_checks initialize_fn next_fn = None
  /\ exists s a p e0 n1 w a1 n2 u a2 rm a3 mm a4,
      sig_result (type_signature initialize_fn) = FederatedType s SERVER a
      /\ sig_parameter (type_signature next_fn) = Some p
      /\ forallb is_federated
           (flatten p ++ flatten (sig_result (type_signature next_fn)))%list
         = true
      /\ is_struct p = true
      /\ struct_elements p
         = [e0; (n1, FederatedType w SERVER a1); (n2, FederatedType u SERVER a2)]
      /\ (exists es, w = StructWithPythonType es ModelWeights)
      /\ getattr (sig_result (type_signature next_fn)) attr_result
         = inr (VType (FederatedType rm SERVER a3))
      /\ is_assignable_from w rm = true
      /\ getattr (sig_result (type_signature next_fn)) attr_measurements
         = inr (VType (FederatedType mm SERVER a4)).
Proof.
  split.
  - intros H. apply valid_pair_inv in H
      as (Ho & Hb & s & a & p & e0 & n1 & w & a1 & n2 & u & a2 & rm & a3
            & mm & a4 & Hi & Hp & Hf & Hs & He & Hw & Hr & Ha & Hm).
    split; [exact Ho |]. split; [exact Hb |].
    exists s, a, p, e0, n1, w, a1, n2, u, a2, rm, a3, mm, a4.
    apply not_model_weights_false in Hw. repeat split; assumption.
  - intros (-> & Hb & s & a & p & e0 & n1 & w & a1 & n2 & u & a2 & rm & a3
              & mm & a4 & Hi & Hp & Hf & Hs & He & Hw & Hr & Ha & Hm).
    apply not_model_weights_false in Hw.
    exact (valid_pair_intro _ _ s p w u rm mm a a1 a2 a3 a4 e0 n1 n2
             Hb Hi Hp Hf Hs He Hw Hr Ha Hm).
Qed.

(** Goes through the constructor in a hypothesis that says it failed. *)
Ltac failure_cases H :=
  repeat first
    [ match goal with
      | H' : getattr _ _ = inl ?e |- _ => apply getattr_error in H'; subst e
      | H' : getattr_value _ _ = inl ?e |- _ =>
          apply getattr_value_error in H'; subst e
      | H' : as_type _ = inl ?e |- _ => apply as_type_error in H'; subst e
      | H' : str_join _ _ = inl ?e |- _ => apply str_join_error in H'; subst e
      end
    | discriminate H
    | match type of H with
      | inl _ = inl _ => injection H as <-; cbn; tauto
      | context [match (if ?c then _ else _) with _ => _ end] =>
          destruct c; cbn in H
      | context [match ?x with _ => _ end] => destruct x eqn:?; cbn in H
      end ].

(** The two ways the constructor fails once the base class has accepted
    the pair: at the test of the initializer's result, or later with another
    error. *)
Lemma failure_forms (initialize_fn next_fn : Computation) (e : PyException) :
  base_checks initialize_fn next_fn = None ->
  FinalizerProcess initialize_fn next_fn = inl e ->
  (is_federated (sig_result (type_signature initialize_fn)) = false
   /\ exc_class e = TemplateNotFederatedError)
  \/ (is_federated (sig_result (type_signature initialize_fn)) = true
      /\ match e with
         | Raised c _ =>
             c = TemplatePlacementError \/ c = TemplateNextFnNumArgsError
             \/ c = ModelWeightsTypeError \/ c = FinalizerResultTypeError
         | Uncaught c => c = TypeError \/ c = AttributeError
         end).
Proof.
  intros Hb H.
  unfold FinalizerProcess, FinalizerProcess_init, MeasuredProcess_init,
    next_types_of, raise_if in H.
  rewrite Hb in H. cbn in H.
  destruct (is_federated (sig_result (type_signature initialize_fn)));
    cbn in H; [right; split; [reflexivity |]
              | injection H as <-; left; split; reflexivity].
  destruct (sig_parameter (type_signature next_fn)) as [p |]; cbn in H;
    [| injection H as <-; cbn; tauto].
  destruct (forallb is_federated
              (flatten p ++ flatten (sig_result (type_signature next_fn))))
    eqn:Hf; cbn in H.
  2:{ destruct (forallb_false_filter _ _ Hf) as (x & xs & Hx).
      rewrite Hx in H. cbn in H. injection H as <-. cbn. tauto. }
  destruct (getattr (sig_result (type_signature initialize_fn)) attr_placement)
    as [e0 | v0] eqn:Hg0; cbn in H.
  { apply getattr_error in Hg0. subst e0. injection H as <-. cbn. tauto. }
  destruct (py_ne v0 (VPlacement SERVER)); cbn in H;
    [injection H as <-; cbn; tauto |].
  destruct (is_struct p); cbn in H; [| injection H as <-; cbn; tauto].
  destruct (List.length (struct_elements p) =? 3)%nat eqn:Hl; cbn in H.
  2:{ rewrite (str_join_strings _ (fun e => type_str (snd e))) in H.
      cbn in H. injection H as <-. cbn. tauto. }
  apply length_three in Hl as (e0 & [n1 t1] & [n2 t2] & He).
  rewrite He in H. cbn in H.
  failure_cases H.
Qed.

(** The exceptions that leave the constructor.  When the base-class
    constructor accepts the pair, an exception raised by a [raise] statement
    is of one of the five classes the module raises, and any other exception
    is Python's [TypeError] (the join of line 75) or [AttributeError]
    (attribute access on a type without the attribute).  In particular the
    indexing of lines 101-102 never fails: it comes after the test of the
    length. *)
Theorem exceptions_of_constructor (initialize_fn next_fn : Computation)
  (e : PyException) :
  base_checks initialize_fn next_fn = None ->
  FinalizerProcess initialize_fn next_fn = inl e ->
  match e with
  | Raised c _ =>
      c = TemplateNotFederatedError \/ c = TemplatePlacementError
      \/ c = TemplateNextFnNumArgsError \/ c = ModelWeightsTypeError
      \/ c = FinalizerResultTypeError
  | Uncaught c => c = TypeError \/ c = AttributeError
  end.
Proof.
  intros Hb H.
  destruct (is_federated (sig_result (type_signature initialize_fn))) eqn:Hi.
  - destruct (failure_forms _ _ _ Hb H) as [[Hn _] | [_ Hc]];
      [congruence |].
    destruct e; tauto.
  - rewrite (init_not_federated_raises _ _ Hb Hi) in H.
    injection H as <-. left. reflexivity.
Qed.

(** Where [TemplateNotFederatedError] comes from (lines 65-81).  When the
    base-class constructor accepts the pair, construction fails with
    [TemplateNotFederatedError] exactly when the result type of the
    initializer is not federated.  With a federated initializer, a leaf type
    of the step function that is not federated ends in Python's [TypeError]:
    the join of line 75 fails before the [raise] of lines 77-81 is
    reached. *)
Theorem not_federated_error_origin (initialize_fn next_fn : Computation) :
  base_checks initialize_fn next_fn = None ->
  (raises (FinalizerProcess initialize_fn next_fn) TemplateNotFederatedError
   <-> is_federated (sig_result (type_signature initialize_fn)) = false)
  /\ (is_federated (sig_result (type_signature initialize_fn)) = true ->
      forall p,
        sig_parameter (type_signature next_fn) = Some p ->
        forallb is_federated
          (flatten p ++ flatten (sig_result (type_signature next_fn)))%list
        = false ->
        FinalizerProcess initialize_fn next_fn = inl (Uncaught TypeError)).
Proof.
  intros Hb. split; [split |].
  - intros (e & H & Hc).
    destruct (failure_forms _ _ _ Hb H) as [[Hn _] | [_ Hf]]; [exact Hn |].
    exfalso. destruct e as [c m | c]; cbn in Hc; subst c;
      repeat destruct Hf as [Hf | Hf]; discriminate Hf.
  - intros Hi. rewrite (init_not_federated_raises _ _ Hb Hi).
    apply raises_inl. reflexivity.
  - intros Hi p Hp Hf.
    exact (next_not_federated_type_error _ _ p Hb Hi Hp Hf).
Qed.

(** The messages of the five placement errors (lines 83-86, 103-106,
    114-117, 119-123 and 131-134) are pairwise different whatever the types
    they embed: the text of a [TemplatePlacementError] tells which part of
    the signature is misplaced. *)
Theorem placement_messages_differ (t1 t2 : TffType) (v1 v2 : PyValue) :
  msg_state_placement type_str t1 <> msg_second_placement type_str t2
  /\ msg_state_placement type_str t1 <> msg_third_placement type_str t2
  /\ msg_state_placement type_str t1 <> msg_result_placement type_str v2
  /\ msg_state_placement type_str t1 <> msg_measurements_placement type_str v2
  /\ msg_second_placement type_str t1 <> msg_third_placement type_str t2
  /\ msg_second_placement type_str t1 <> msg_result_placement type_str v2
  /\ msg_second_placement type_str t1 <> msg_measurements_placement type_str v2
  /\ msg_third_placement type_str t1 <> msg_result_placement type_str v2
  /\ msg_third_placement type_str t1 <> msg_measurements_placement type_str v2
  /\ msg_result_placement type_str v1 <> msg_measurements_placement type_str v2.
Proof.
  unfold msg_state_placement, msg_second_placement, msg_third_placement,
    msg_result_placement, msg_measurements_placement, dq.
  repeat split; cbn; intros H; repeat (injection H as H); discriminate.
Qed.

(** The state parameter is left to the base class (comment of lines 87-89).
    For a pair that the constructor accepts, putting any federated type in
    the place of the first element of the parameter of the step function
    gives a pair that the constructor accepts again, as long as the
    base-class constructor does: the class itself never looks at the
    placement of the state that the step function consumes. *)
Theorem state_parameter_not_checked (initialize_fn next_fn : Computation)
  (obj : Process) (p t0' : TffType) (e0 e1 e2 : option string * TffType)
  (n0' : option string) :
  FinalizerProcess initialize_fn next_fn = inr obj ->
  sig_parameter (type_signature next_fn) = Some p ->
  struct_elements p = [e0; e1; e2] ->
  is_federated t0' = true ->
  let next_fn' :=
    with_parameter next_fn (with_elements p [(n0', t0'); e1; e2]) in
  base_checks initialize_fn next_fn' = None ->
  FinalizerProcess initialize_fn next_fn'
  = inr {| initialize := initialize_fn; next := next_fn' |}.
Proof.
  intros Hok Hp He Ht0 next_fn' Hb'.
  apply valid_pair_inv in Hok
    as (_ & _ & s & a & p' & e0' & n1 & w & a1 & n2 & u & a2 & rm & a3
          & mm & a4 & Hi & Hp' & Hf & Hs & He' & Hw & Hr & Ha & Hm).
  rewrite Hp in Hp'. injection Hp' as <-.
  rewrite He in He'. injection He' as <- -> ->.
  subst next_fn'.
  apply (valid_pair_intro _ _ s
           (with_elements p [(n0', t0'); (n1, FederatedType w SERVER a1);
                             (n2, FederatedType u SERVER a2)])
           w u rm mm a a1 a2 a3 a4 (n0', t0') n1 n2);
    try assumption; try reflexivity.
  - cbn [with_parameter type_signature sig_result].
    apply forallb_app_true in Hf as [_ Hfr].
    apply forallb_app_true. split; [| exact Hfr].
    rewrite flatten_with_elements. cbn.
    destruct t0'; try discriminate. reflexivity.
  - destruct p; reflexivity.
  - destruct p; reflexivity.
Qed.

(** ** The validation sequence, in general *)

Ltac unfold_messages :=
  unfold message1, message2, message3, message4, message5_placement,
    message5_container, message6, message7, message8, message9, next_param,
    next_result_field, init_result, member_of.

Ltac fold_back :=
  match goal with
  | H : _ = sig_result _ |- _ => rewrite <- H
  | H : _ = sig_parameter _ |- _ => rewrite <- H
  | H : _ = struct_elements _ |- _ => rewrite <- H
  | H : _ = is_struct _ |- _ => rewrite <- H
  | H : named_element _ _ = Some _ |- _ => rewrite H
  end.

(** Closes a branch in which the outcome [o] of the constructor is known:
    either it is an exception of Python's own, which [Hnu] excludes, or it is
    the outcome of the sequence. *)
Ltac leaf o Hnu :=
  subst o;
  first [ exfalso; exact (Hnu _ eq_refl)
        | cbn [outcome_of error message]; unfold_messages;
          repeat (fold_back; cbn); reflexivity ].

(** The constructor against the sequence for every pair whose construction
    does not end in an exception of Python's own. *)
Lemma validation_order_unless_python_error
  (initialize_fn next_fn : Computation) :
  base_checks initialize_fn next_fn = None ->
  (forall c, FinalizerProcess initialize_fn next_fn <> inl (Uncaught c)) ->
  FinalizerProcess initialize_fn next_fn
  = outcome_of
      (first_violated (validation_sequence is_assignable_from type_str)
         initialize_fn next_fn)
      initialize_fn next_fn.
Proof.
  intros Hb Hnu.
  remember (FinalizerProcess initialize_fn next_fn) as o eqn:Ho in *.
  unfold FinalizerProcess, FinalizerProcess_init, MeasuredProcess_init,
    next_types_of, raise_if in Ho.
  rewrite Hb in Ho.
  unfold validation_sequence, first_violated, holds.
  unfold rule1, rule2, rule3, rule4, rule5_placement, rule5_container, rule6,
    rule7, rule8, rule9, next_param, next_result_field, init_result,
    next_leaves, three_element_struct.
  remember (sig_result (type_signature initialize_fn)) as ir eqn:Hir in *.
  remember (sig_parameter (type_signature next_fn)) as op eqn:Hop in *.
  remember (sig_result (type_signature next_fn)) as r eqn:Hr in *.
  (* rule 1 *)
  destruct ir as [| | | | | | | s pl a]; cbn in Ho;
    cbn [is_federated placed_at_server]; try (leaf o Hnu).
  (* rule 2 *)
  destruct op as [p |]; cbn in Ho; [| leaf o Hnu].
  remember (forallb is_federated (flatten p ++ flatten r)) as fb eqn:Hf in *.
  destruct fb; cbn in Ho.
  2:{ symmetry in Hf. destruct (forallb_false_filter _ _ Hf) as (x & xs & Hx).
      rewrite Hx in Ho. cbn in Ho. leaf o Hnu. }
  (* rule 3 *)
  destruct pl; cbn in Ho; cbn [placed_at_server]; [| leaf o Hnu].
  (* rule 4 *)
  remember (is_struct p) as sp eqn:Hs in *.
  destruct sp; cbn in Ho; cbn [andb]; [| leaf o Hnu].
  remember (struct_elements p) as es eqn:He in *.
  rewrite (str_join_strings _ (fun e => type_str (snd e))) in Ho.
  destruct es as [| e0 [| [n1 t1] [| [n2 t2] [| e3 es]]]]; cbn in Ho;
    cbn [List.length Nat.eqb]; try (leaf o Hnu).
  cbn [nth_error].
  (* rule 5, placement *)
  destruct t1 as [| es1 | es1 c1 | | | | | m1 pl1 b1]; cbn in Ho;
    cbn [placed_at_server]; try (leaf o Hnu).
  1,2: destruct (named_element es1 "placement"); cbn in Ho; leaf o Hnu.
  destruct pl1; cbn in Ho; cbn [placed_at_server]; [| leaf o Hnu].
  (* rule 5, container *)
  cbn [member_of].
  remember (not_model_weights m1) as nw eqn:Hw in *.
  destruct nw; cbn in Ho; cbn [negb]; [leaf o Hnu |].
  (* rule 6 *)
  destruct t2 as [| es2 | es2 c2 | | | | | m2 pl2 b2]; cbn in Ho;
    cbn [placed_at_server]; try (leaf o Hnu).
  1,2: destruct (named_element es2 "placement"); cbn in Ho; leaf o Hnu.
  destruct pl2; cbn in Ho; cbn [placed_at_server]; [| leaf o Hnu].
  (* rule 7 *)
  assert (Hattr : forall a v,
             a = attr_result \/ a = attr_measurements ->
             getattr r a = inr v ->
             exists t, v = VType t
                       /\ named_element (struct_elements r) (attr_name a)
                          = Some t).
  { intros a0 v Ha Hg.
    destruct r as [| esr | esr cr | | par res | | |];
      try (destruct Ha as [-> | ->]; discriminate Hg).
    - cbn in Hg |- *.
      destruct (named_element esr (attr_name a0));
        [| destruct a0; discriminate].
      destruct a0; injection Hg as <-; eauto.
    - cbn in Hg |- *.
      destruct (named_element esr (attr_name a0));
        [| destruct a0; discriminate].
      destruct a0; injection Hg as <-; eauto.
    - exfalso. symmetry in Hf. apply forallb_app_true in Hf as [_ Hf].
      discriminate Hf. }
  destruct (getattr r attr_result) as [er | vr] eqn:Hgr; cbn in Ho.
  { apply getattr_error in Hgr. subst er. leaf o Hnu. }
  destruct (Hattr _ _ (or_introl eq_refl) Hgr) as (rt & -> & Hnr).
  cbn [attr_name] in Hnr. rewrite Hnr.
  destruct rt as [| es3 | es3 c3 | | | | | rm pl3 b3]; cbn in Ho;
    cbn [placed_at_server]; try (leaf o Hnu).
  1,2: destruct (named_element es3 "placement"); cbn in Ho; leaf o Hnu.
  destruct pl3; cbn in Ho; cbn [placed_at_server]; [| leaf o Hnu].
  (* rule 8 *)
  cbn [member_of].
  remember (is_assignable_from m1 rm) as ab eqn:Hab in *.
  destruct ab; cbn in Ho; [| leaf o Hnu].
  (* rule 9 *)
  destruct (getattr r attr_measurements) as [em | vm] eqn:Hgm; cbn in Ho.
  { apply getattr_error in Hgm. subst em. leaf o Hnu. }
  destruct (Hattr _ _ (or_intror eq_refl) Hgm) as (mt & -> & Hnm).
  cbn [attr_name] in Hnm. rewrite Hnm.
  destruct mt as [| es4 | es4 c4 | | | | | mm pl4 b4]; cbn in Ho;
    cbn [placed_at_server]; try (leaf o Hnu).
  1,2: destruct (named_element es4 "placement"); cbn in Ho; leaf o Hnu.
  destruct pl4; cbn in Ho; cbn [placed_at_server]; leaf o Hnu.
Qed.

(** C9 (as amended).  For a pair that the base-class constructor accepts, the
    checks are evaluated in the listed order, the fifth one as two
    consecutive tests (the placement, answered by the placement error, then
    the container, answered by the container-type error): the constructor
    raises the error of the earliest violated check of
    [validation_sequence], with that check's message, and returns the object
    when no check is violated.  This holds whenever the result of the
    initializer is not federated, or the step function is over federated
    types, or, more generally, construction does not end in an exception of
    Python's own (the [TypeError] of line 75, the [AttributeError] of a type
    that lacks the attribute read). *)
Theorem C9_validation_order (initialize_fn next_fn : Computation) :
  base_checks initialize_fn next_fn = None ->
  is_federated (sig_result (type_signature initialize_fn)) = false
  \/ federated_step next_fn = true
  \/ (forall c, FinalizerProcess initialize_fn next_fn <> inl (Uncaught c)) ->
  FinalizerProcess initialize_fn next_fn
  = outcome_of
      (first_violated (validation_sequence is_assignable_from type_str)
         initialize_fn next_fn)
      initialize_fn next_fn.
Proof.
  intros Hb [Hi | [Hfs | Hnu]].
  - apply validation_order_unless_python_error; [exact Hb |].
    intros c. rewrite (init_not_federated_raises _ _ Hb Hi). discriminate.
  - apply validation_order_federated_step; assumption.
  - apply validation_order_unless_python_error; assumption.
Qed.

End Properties.


(** ** The constructor on the example pairs *)

Import Instance.

(** C2 (the code at a failing input).  The initializer returns a federated
    value at the server and the third parameter of the step function carries
    no placement, so a leaf type of the step function is not federated.  The
    constructor does not raise [TemplateNotFederatedError]: joining the
    offending type descriptors (line 75) raises Python's [TypeError] before
    the error of lines 77-81 is built. *)
Theorem C2_offending_types_not_listed :
  is_federated (sig_result (type_signature init_server)) = true
  /\ In (float32_vec (Some 5))
        (next_leaves next_unplaced_update)
  /\ is_federated (float32_vec (Some 5)) = false
  /\ FinalizerProcess init_server next_unplaced_update = inl (Uncaught TypeError)
  /\ ~ raises (FinalizerProcess init_server next_unplaced_update)
         TemplateNotFederatedError.
Proof.
  assert (Hrun : FinalizerProcess init_server next_unplaced_update
                 = inl (Uncaught TypeError)).
  { apply (next_not_federated_type_error is_assignable_from type_str
             base_checks init_server next_unplaced_update
             (StructType [(None, at_server int32);
                          (None, at_server (weights (Some 5)));
                          (None, float32_vec (Some 5))]));
      reflexivity. }
  split; [reflexivity |]. split; [cbn; auto |]. split; [reflexivity |].
  split; [exact Hrun |].
  rewrite Hrun. intros (e & [= <-] & Hc). discriminate Hc.
Qed.

(** C1 as stated fails: here the member type of the [result] field is not
    assignable from the member type of the second parameter, every earlier
    check passes, and construction succeeds. *)
Lemma C1_counterexample :
  is_assignable_from (weights (Some 5)) (weights None) = false
  /\ FinalizerProcess init_server next_widening
     = inr {| initialize := init_server; next := next_widening |}.
Proof. split; reflexivity. Qed.

Lemma C1_witness :
  exists msg,
    FinalizerProcess init_server next_narrowing
    = inl (Raised FinalizerResultTypeError msg)
    /\ msg = msg_result_type type_str (weights (Some 5)) (weights None)
    /\ Embeds (type_str (weights (Some 5))) msg
    /\ Embeds (type_str (weights None)) msg.
Proof.
  apply (C1_result_type_mismatch is_assignable_from type_str base_checks
           init_server next_narrowing int32
           (StructType [(None, at_server int32);
                        (None, at_server (weights (Some 5)));
                        (None, at_server (float32_vec (Some 5)))])
           (weights (Some 5)) (float32_vec (Some 5)) (weights None)
           true true true true (None, at_server int32) None None);
    reflexivity.
Defined.

(** C3 as stated fails: the result type of this initializer is not
    federated, and the exception is the one of the base-class constructor,
    which runs first (line 63) and does not accept an unplaced state for a
    step function over a state at the server. *)
Lemma C3_counterexample :
  is_federated (sig_result (type_signature init_unplaced)) = false
  /\ FinalizerProcess init_unplaced next_valid
     = inl (Uncaught TemplateStateNotAssignableError)
  /\ ~ raises (FinalizerProcess init_unplaced next_valid)
         TemplateNotFederatedError.
Proof.
  assert (Hrun : FinalizerProcess init_unplaced next_valid
                 = inl (Uncaught TemplateStateNotAssignableError)).
  { apply (base_refusal_propagates is_assignable_from type_str base_checks).
    reflexivity. }
  split; [reflexivity |]. split; [exact Hrun |].
  rewrite Hrun. intros (e & [= <-] & Hc). discriminate Hc.
Qed.

Lemma C3_witness :
  exists msg,
    FinalizerProcess init_unplaced next_unplaced_state
    = inl (Raised TemplateNotFederatedError msg)
    /\ Embeds (type_str int32) msg.
Proof.
  apply (C3_init_not_federated is_assignable_from type_str base_checks
           init_unplaced next_unplaced_state); reflexivity.
Defined.

(** C4 as stated fails: the parameter of this step function is a structure
    of two elements, and the error is the placement error of the third check,
    which comes first. *)
Lemma C4_counterexample :
  List.length
    (struct_elements (StructType [(None, at_clients int32);
                                  (None, at_server float32)])) = 2
  /\ sig_parameter (type_signature (next_two_params (at_clients int32)))
     = Some (StructType [(None, at_clients int32); (None, at_server float32)])
  /\ FinalizerProcess init_clients (next_two_params (at_clients int32))
     = inl (Raised TemplatePlacementError
              (msg_state_placement type_str (at_clients int32)))
  /\ ~ raises (FinalizerProcess init_clients
                 (next_two_params (at_clients int32)))
         TemplateNextFnNumArgsError.
Proof.
  split; [reflexivity |]. split; [reflexivity |]. split; [reflexivity |].
  intros (e & He & Hc). vm_compute in He. injection He as <-. discriminate.
Qed.

Lemma C4_witness :
  exists msg,
    FinalizerProcess init_server (next_two_params (at_server int32))
    = inl (Raised TemplateNextFnNumArgsError msg)
    /\ Embeds "2" msg
    /\ Embeds (type_str (at_server int32)) msg
    /\ Embeds (type_str (at_server float32)) msg.
Proof.
  destruct (C4_wrong_argument_count is_assignable_from type_str base_checks
              init_server (next_two_params (at_server int32)) int32
              (StructType [(None, at_server int32); (None, at_server float32)])
              true eq_refl eq_refl eq_refl eq_refl eq_refl)
    as (msg & Hrun & [(Hs & _) | (_ & _ & Hlen & Hall)] & _).
  - discriminate Hs.
  - exists msg. split; [exact Hrun |]. split; [exact Hlen |].
    split; [apply (Hall (None, at_server int32)) |
            apply (Hall (None, at_server float32))]; cbn; auto.
Defined.

(** C5 as stated fails: the result of this initializer is federated and
    placed at the clients, and the constructor stops at the second check (a
    leaf type of the step function is not federated), before the placement of
    the state is looked at. *)
Lemma C5_counterexample :
  sig_result (type_signature init_clients) = FederatedType int32 CLIENTS false
  /\ FinalizerProcess init_clients next_clients_state_unplaced_update
     = inl (Uncaught TypeError)
  /\ ~ raises (FinalizerProcess init_clients
                 next_clients_state_unplaced_update)
         TemplatePlacementError.
Proof.
  split; [reflexivity |]. split; [reflexivity |].
  intros (e & He & Hc). vm_compute in He. injection He as <-. discriminate.
Qed.

Lemma C5_witness :
  exists msg,
    FinalizerProcess init_clients next_clients_state
    = inl (Raised TemplatePlacementError msg)
    /\ msg = msg_state_placement type_str (at_clients int32)
    /\ Embeds (type_str (at_clients int32)) msg.
Proof.
  apply (C5_init_placement is_assignable_from type_str base_checks
           init_clients next_clients_state int32
           (StructType [(None, at_clients int32);
                        (None, at_server (weights (Some 5)));
                        (None, at_server (float32_vec (Some 5)))])
           CLIENTS false);
    try reflexivity.
  discriminate.
Defined.

(** C6 as stated fails: the second parameter of this step function has the
    [ModelWeights] container and is placed at the clients; it fails the
    requirement by its placement, and the error is the placement error, not
    the container-type error. *)
Lemma C6_counterexample :
  next_param 1 next_weights_at_clients = at_clients (weights (Some 5))
  /\ FinalizerProcess init_server next_weights_at_clients
     = inl (Raised TemplatePlacementError
              (msg_second_placement type_str (at_clients (weights (Some 5)))))
  /\ ~ raises (FinalizerProcess init_server next_weights_at_clients)
         ModelWeightsTypeError.
Proof.
  split; [reflexivity |]. split; [reflexivity |].
  intros (e & He & Hc). vm_compute in He. injection He as <-. discriminate.
Qed.

Lemma C6_witness :
  exists msg,
    FinalizerProcess init_server (next_weights_in (OtherClass "OrderedDict"))
    = inl (Raised ModelWeightsTypeError msg)
    /\ Embeds
         (type_str (at_server (weights_in (OtherClass "OrderedDict") (Some 5))))
         msg.
Proof.
  apply (C6_second_parameter is_assignable_from type_str base_checks
           init_server (next_weights_in (OtherClass "OrderedDict")) int32
           (StructType
              [(None, at_server int32);
               (None, at_server (weights_in (OtherClass "OrderedDict") (Some 5)));
               (None, at_server (float32_vec (Some 5)))])
           (weights_in (OtherClass "OrderedDict") (Some 5)) true true SERVER
           (None, at_server int32) None None
           (at_server (float32_vec (Some 5)))
           eq_refl eq_refl eq_refl eq_refl eq_refl eq_refl).
  - reflexivity.
  - intros es H. discriminate H.
Defined.

Lemma C7_witness :
  exists msg,
    FinalizerProcess init_server next_update_at_clients
    = inl (Raised TemplatePlacementError msg)
    /\ msg = msg_third_placement type_str (at_clients (float32_vec (Some 5)))
    /\ Embeds "third input argument" msg
    /\ Embeds (type_str (at_clients (float32_vec (Some 5)))) msg.
Proof.
  apply (C7_third_parameter_placement is_assignable_from type_str base_checks
           init_server next_valid
           {| initialize := init_server; next := next_valid |}
           (StructType [(None, at_server int32);
                        (None, at_server (weights (Some 5)));
                        (None, at_server (float32_vec (Some 5)))])
           (float32_vec (Some 5)) true false
           (None, at_server int32) (None, at_server (weights (Some 5))) None);
    reflexivity.
Defined.

Lemma C8_witness :
  exists obj,
    FinalizerProcess init_server next_valid = inr obj
    /\ initialize obj = init_server
    /\ next obj = next_valid.
Proof.
  apply (C8_valid_pair_accepted is_assignable_from type_str base_checks
           init_server next_valid int32 int32 int32
           (StructType [(None, at_server int32);
                        (None, at_server (weights (Some 5)));
                        (None, at_server (float32_vec (Some 5)))])
           (output (at_server int32) (at_server (weights (Some 5)))
                   (at_server (StructType [])))
           (float32_vec (Some 5)) (weights (Some 5)) (StructType [])
           true true true true true true true None None None
           [(Some "trainable", float32_vec (Some 5));
            (Some "non_trainable", float32_vec (Some 5))]);
    reflexivity.
Defined.

(** C9 as stated fails: in this pair the second and the third parameter are
    both placed at the clients.  The earliest violated check of the sequence
    of the specification is the fifth, whose error is the container-type
    error; the constructor raises the placement error. *)
Lemma C9_counterexample :
  option_map error
    (first_violated (spec_validation_sequence is_assignable_from type_str)
       init_server next_weights_and_update_at_clients)
  = Some ModelWeightsTypeError
  /\ FinalizerProcess init_server next_weights_and_update_at_clients
     = inl (Raised TemplatePlacementError
              (msg_second_placement type_str (at_clients (weights (Some 5)))))
  /\ ~ raises (FinalizerProcess init_server
                 next_weights_and_update_at_clients)
         ModelWeightsTypeError.
Proof.
  split; [reflexivity |]. split; [reflexivity |].
  intros (e & He & Hc). vm_compute in He. injection He as <-. discriminate.
Qed.

Lemma C9_witness :
  FinalizerProcess init_unplaced (next_two_params int32)
  = outcome_of
      (first_violated (validation_sequence is_assignable_from type_str)
         init_unplaced (next_two_params int32))
      init_unplaced (next_two_params int32)
  /\ rule1 init_unplaced (next_two_params int32) = false
  /\ rule4 init_unplaced (next_two_params int32) = false
  /\ FinalizerProcess init_unplaced (next_two_params int32)
     = inl (Raised TemplateNotFederatedError
              (msg_init_not_federated type_str int32)).
Proof.
  split; [| repeat split; reflexivity].
  apply (C9_validation_order is_assignable_from type_str base_checks
           init_unplaced (next_two_params int32)).
  - reflexivity.
  - left. reflexivity.
Defined.

Lemma C10_witness :
  issubclass MyWeights ModelWeights = true
  /\ raises (FinalizerProcess init_server (next_weights_in MyWeights))
       ModelWeightsTypeError.
Proof.
  split; [reflexivity |].
  apply (C10_container_identity is_assignable_from type_str base_checks
           init_server (next_weights_in MyWeights) int32
           (StructType [(None, at_server int32);
                        (None, at_server (weights_in MyWeights (Some 5)));
                        (None, at_server (float32_vec (Some 5)))])
           (weights_in MyWeights (Some 5))
           (at_server (float32_vec (Some 5))) true true
           (None, at_server int32) None None
           eq_refl eq_refl eq_refl eq_refl eq_refl eq_refl).
  intros es H. discriminate H.
Defined.

(** ** The further properties on the example pairs *)

Lemma result_field_placement_witness :
  exists msg,
    FinalizerProcess init_server next_result_at_clients
    = inl (Raised TemplatePlacementError msg)
    /\ msg = msg_result_placement type_str
               (VType (at_clients (weights (Some 5))))
    /\ Embeds (type_str (at_clients (weights (Some 5)))) msg.
Proof.
  apply (result_field_placement is_assignable_from type_str base_checks
           init_server next_result_at_clients int32
           (StructType [(None, at_server int32);
                        (None, at_server (weights (Some 5)));
                        (None, at_server (float32_vec (Some 5)))])
           (weights (Some 5)) (float32_vec (Some 5)) (weights (Some 5))
           true true true false CLIENTS (None, at_server int32) None None);
    try reflexivity.
  - eexists. reflexivity.
  - discriminate.
Defined.

Lemma measurements_field_placement_witness :
  exists msg,
    FinalizerProcess init_server next_measurements_at_clients
    = inl (Raised TemplatePlacementError msg)
    /\ msg = msg_measurements_placement type_str
               (VType (at_clients (StructType [])))
    /\ Embeds (type_str (at_clients (StructType []))) msg.
Proof.
  apply (measurements_field_placement is_assignable_from type_str base_checks
           init_server next_measurements_at_clients int32
           (StructType [(None, at_server int32);
                        (None, at_server (weights (Some 5)));
                        (None, at_server (float32_vec (Some 5)))])
           (weights (Some 5)) (float32_vec (Some 5)) (weights (Some 5))
           (StructType []) true true true true false CLIENTS
           (None, at_server int32) None None);
    try reflexivity.
  - eexists. reflexivity.
  - discriminate.
Defined.

Lemma accepted_pairs_witness :
  FinalizerProcess init_server next_valid
  = inr {| initialize := init_server; next := next_valid |}.
Proof.
  apply (proj2 (accepted_pairs is_assignable_from type_str base_checks
                  init_server next_valid
                  {| initialize := init_server; next := next_valid |})).
  split; [reflexivity |]. split; [reflexivity |].
  exists int32, true,
    (StructType [(None, at_server int32);
                 (None, at_server (weights (Some 5)));
                 (None, at_server (float32_vec (Some 5)))]),
    (None, at_server int32), None, (weights (Some 5)), true, None,
    (float32_vec (Some 5)), true, (weights (Some 5)), true, (StructType []),
    true.
  repeat split; try reflexivity. eexists. reflexivity.
Defined.

Lemma exceptions_of_constructor_witness :
  ModelWeightsTypeError = TemplateNotFederatedError
  \/ ModelWeightsTypeError = TemplatePlacementError
  \/ ModelWeightsTypeError = TemplateNextFnNumArgsError
  \/ ModelWeightsTypeError = ModelWeightsTypeError
  \/ ModelWeightsTypeError = FinalizerResultTypeError.
Proof.
  apply (exceptions_of_constructor is_assignable_from type_str base_checks
           init_server (next_weights_in (OtherClass "OrderedDict"))
           (Raised ModelWeightsTypeError
              (msg_model_weights type_str
                 (at_server (weights_in (OtherClass "OrderedDict") (Some 5))))));
    reflexivity.
Defined.

Lemma not_federated_error_origin_witness :
  (raises (FinalizerProcess init_server next_unplaced_update)
     TemplateNotFederatedError
   <-> is_federated (sig_result (type_signature init_server)) = false)
  /\ FinalizerProcess init_server next_unplaced_update
     = inl (Uncaught TypeError).
Proof.
  destruct (not_federated_error_origin is_assignable_from type_str base_checks
              init_server next_unplaced_update eq_refl) as [Hiff Hjoin].
  split; [exact Hiff |].
  apply (Hjoin eq_refl
           (StructType [(None, at_server int32);
                        (None, at_server (weights (Some 5)));
                        (None, float32_vec (Some 5))]));
    reflexivity.
Defined.

Lemma state_parameter_not_checked_witness :
  FinalizerProcess_init is_assignable_from type_str accept_all init_server
    (with_parameter next_valid
       (StructType [(None, at_clients int32);
                    (None, at_server (weights (Some 5)));
                    (None, at_server (float32_vec (Some 5)))]))
  = inr {| initialize := init_server;
           next := with_parameter next_valid
                     (StructType [(None, at_clients int32);
                                  (None, at_server (weights (Some 5)));
                                  (None, at_server (float32_vec (Some 5)))]) |}.
Proof.
  apply (state_parameter_not_checked is_assignable_from type_str accept_all
           init_server next_valid
           {| initialize := init_server; next := next_valid |}
           (StructType [(None, at_server int32);
                        (None, at_server (weights (Some 5)));
                        (None, at_server (float32_vec (Some 5)))])
           (at_clients int32)
           (None, at_server int32) (None, at_server (weights (Some 5)))
           (None, at_server (float32_vec (Some 5))) None);
    reflexivity.
Defined.
